(** * Token manager: the transaction orchestration of [WalletConnection]

    A shallow embedding of the React component [WalletConnection]
    (src/src/App.tsx, the revision with a user-specified mint amount):
    its hooks state, the three handlers [createToken], [mintTokens] and
    [transferTokens], and the two balance refreshers.

    - JavaScript numbers are IEEE binary64 values, taken from the
      Standard Library's [SpecFloat] (round to nearest, ties to even).
    - The collaborators (RPC connection, wallet, key generator, clock) are
      an environment record; every answer may depend on the number of
      collaborator calls made so far, and may be a thrown error.
    - A handler runs to completion on the state it was started in; the
      values it closes over are those of the render it was created in.

    Embedded besides: the [mintTokens] of the earlier revision, with its
    fixed quantity; the conditions under which the buttons and the cells
    of the history table are rendered; the build override of
    src/config-overrides.js. *)

From Stdlib Require Import ZArith List String Ascii Bool Lia.
From Stdlib Require Import Floats.SpecFloat.
Import ListNotations.

Set Implicit Arguments.

Local Open Scope string_scope.
Local Open Scope Z_scope.

(** ** JavaScript numbers *)

Module JsNumber.

Definition prec : Z := 53.
Definition emax : Z := 1024.

Definition number : Type := spec_float.

Definition nan : number := S754_nan.
Definition infinity (neg : bool) : number := S754_infinity neg.

(** [Number(z)] for a bigint [z], and integer literals such as [1e9]. *)
Definition of_Z (z : Z) : number := binary_normalize prec emax z 0 false.

Definition zero : number := of_Z 0.
Definition billion : number := of_Z 1000000000.

Definition isNaN (x : number) : bool :=
  match x with S754_nan => true | _ => false end.

Definition mul : number -> number -> number := SFmul prec emax.
Definition div : number -> number -> number := SFdiv prec emax.

(** [x <= y], [x < y], [x > y]: all false on NaN. *)
Definition leb (x y : number) : bool := SFleb x y.
Definition ltb (x y : number) : bool := SFltb x y.
Definition gtb (x y : number) : bool := SFltb y x.

(** The decimal [m * 10^e] with [0 <= m], correctly rounded; the sign is
    kept on a zero result. *)
Definition of_decimal (neg : bool) (m e : Z) : number :=
  match m with
  | Z0 => S754_zero neg
  | Zneg _ => nan
  | Zpos _ =>
      if 0 <=? e then binary_normalize prec emax (if neg then - (m * 10 ^ e) else m * 10 ^ e) 0 neg
      else
        let '(q, e2, l) := SFdiv_core_binary prec emax m 0 (10 ^ (- e)) 0 in
        binary_round_aux prec emax neg q e2 l
  end.

(** The integer [floor x] of a finite [x = (-1)^s * m * 2^e]. *)
Definition floor_Z (s : bool) (m : positive) (e : Z) : Z :=
  let v := if s then Zneg m else Zpos m in
  if 0 <=? e then v * 2 ^ e else v / 2 ^ (- e).

(** The integer that [BigInt(Math.floor(x))] returns: [Math.floor] is
    exact and leaves NaN and the infinities as they are, and [BigInt] is
    exact on integral numbers; [None] where [BigInt] throws. *)
Definition floor_integer (x : number) : option Z :=
  match x with
  | S754_zero _ => Some 0
  | S754_finite s m e => Some (floor_Z s m e)
  | S754_infinity _ | S754_nan => None
  end.

(** *** [parseFloat] *)

Definition is_digit (c : ascii) : bool :=
  let n := Z.of_nat (nat_of_ascii c) in (48 <=? n) && (n <=? 57).

Definition digit_value (c : ascii) : Z := Z.of_nat (nat_of_ascii c) - 48.

(** White space and line terminators (the ASCII ones; strings are byte
    strings here). *)
Definition is_space (c : ascii) : bool :=
  let n := Z.of_nat (nat_of_ascii c) in
  ((9 <=? n) && (n <=? 13)) || (n =? 32).

Fixpoint trimStart (s : string) : string :=
  match s with
  | String c s' => if is_space c then trimStart s' else s
  | EmptyString => s
  end.

(** The longest run of decimal digits at the head of [s], and the rest. *)
Fixpoint span_digits (s : string) : string * string :=
  match s with
  | String c s' =>
      if is_digit c then let '(ds, r) := span_digits s' in (String c ds, r)
      else (EmptyString, s)
  | EmptyString => (EmptyString, EmptyString)
  end.

Fixpoint digits_value_from (acc : Z) (ds : string) : Z :=
  match ds with
  | String c ds' => digits_value_from (10 * acc + digit_value c) ds'
  | EmptyString => acc
  end.

Definition digits_value (ds : string) : Z := digits_value_from 0 ds.

Definition is_empty (s : string) : bool :=
  match s with EmptyString => true | _ => false end.

(** [s] without its first character, when that is [c]. *)
Definition starts_with (c : ascii) (s : string) : option string :=
  match s with
  | String d s' => if Ascii.eqb c d then Some s' else None
  | EmptyString => None
  end.

(** [s] without the prefix [p], when it has it. *)
Fixpoint strip_prefix (p s : string) : option string :=
  match p with
  | EmptyString => Some s
  | String c p' =>
      match starts_with c s with
      | Some s' => strip_prefix p' s'
      | None => None
      end
  end.

(** An optional sign: whether it is [-], and what follows it. *)
Definition scan_sign (s : string) : bool * string :=
  match starts_with "+" s with
  | Some s' => (false, s')
  | None =>
      match starts_with "-" s with
      | Some s' => (true, s')
      | None => (false, s)
      end
  end.

(** ExponentPart: [e] or [E], an optional sign, at least one digit.
    Without a digit the exponent is not part of the numeral. *)
Definition scan_exponent (s : string) : Z * string :=
  match (match starts_with "e" s with
         | Some s1 => Some s1
         | None => starts_with "E" s
         end) with
  | Some s1 =>
      let '(neg, s2) := scan_sign s1 in
      let '(ds, s3) := span_digits s2 in
      if is_empty ds then (0, s)
      else ((if neg then - digits_value ds else digits_value ds), s3)
  | None => (0, s)
  end.

(** The value of a numeral before rounding. *)
Inductive literal : Type :=
| LitInfinity
| LitDecimal (m e : Z).

(** StrUnsignedDecimalLiteral: the longest prefix of [s] that is one,
    with what follows it. *)
Definition scan_unsigned (s : string) : option (literal * string) :=
  match strip_prefix "Infinity" s with
  | Some r => Some (LitInfinity, r)
  | None =>
      let '(ip, s1) := span_digits s in
      match starts_with "." s1 with
      | Some s2 =>
          let '(fp, s3) := span_digits s2 in
          if (is_empty ip && is_empty fp)%bool then None
          else
            let '(x, s4) := scan_exponent s3 in
            Some (LitDecimal (digits_value (ip ++ fp))
                             (x - Z.of_nat (length fp)), s4)
      | None =>
          if is_empty ip then None
          else
            let '(x, s4) := scan_exponent s1 in
            Some (LitDecimal (digits_value ip) x, s4)
      end
  end.

(** The number of the longest numeric prefix of the trimmed input and
    the unread rest; [None] when no prefix is a numeral. *)
Definition parse_prefix (s : string) : option (number * string) :=
  let '(neg, u) := scan_sign (trimStart s) in
  match scan_unsigned u with
  | Some (LitInfinity, r) => Some (infinity neg, r)
  | Some (LitDecimal m e, r) => Some (of_decimal neg m e, r)
  | None => None
  end.

Definition parseFloat (s : string) : number :=
  match parse_prefix s with
  | Some (x, _) => x
  | None => nan
  end.


End JsNumber.

Import JsNumber.

(** ** Data model *)

Definition PublicKey : Type := string.
Definition Signature : Type := string.
Definition Blockhash : Type := string.

(** Constants of the token program library. *)
Definition MINT_SIZE : Z := 82.
Definition TOKEN_PROGRAM_ID : PublicKey := "TokenkegQfeZyiNwAJbNbGKPFXCWuBvf9Ss623VQ5DA".

Module Keypair.
Record t : Type := { publicKey : PublicKey }.
End Keypair.

Module Account.
Record t : Type := { amount : Z }.
End Account.

(** The instruction builders, as constructors of their arguments. *)
Inductive Instruction : Type :=
| createAccount (fromPubkey newAccountPubkey : PublicKey) (space : Z)
                (lamports : number) (programId : PublicKey)
| createInitializeMintInstruction (mint : PublicKey) (decimals : Z)
                (mintAuthority freezeAuthority programId : PublicKey)
| createAssociatedTokenAccountInstruction (payer associatedToken owner mint : PublicKey)
| createMintToInstruction (mint destination authority : PublicKey) (amount : Z)
| createTransferInstruction (source destination owner : PublicKey) (amount : Z)
                (multiSigners : list PublicKey) (programId : PublicKey).

Record Transaction : Type := {
  instructions : list Instruction;
  recentBlockhash : option Blockhash;
  feePayer : option PublicKey;
  signatures : list PublicKey
}.

(** [new Transaction().add(...)] *)
Definition new_Transaction (ixs : list Instruction) : Transaction :=
  {| instructions := ixs; recentBlockhash := None; feePayer := None; signatures := [] |}.

Definition add (ixs : list Instruction) (tx : Transaction) : Transaction :=
  {| instructions := instructions tx ++ ixs; recentBlockhash := recentBlockhash tx;
     feePayer := feePayer tx; signatures := signatures tx |}.

(** [tx.recentBlockhash = b; tx.feePayer = p] *)
Definition prepare (b : Blockhash) (p : PublicKey) (tx : Transaction) : Transaction :=
  {| instructions := instructions tx; recentBlockhash := Some b;
     feePayer := Some p; signatures := signatures tx |}.

Definition addSignature (k : PublicKey) (tx : Transaction) : Transaction :=
  {| instructions := instructions tx; recentBlockhash := recentBlockhash tx;
     feePayer := feePayer tx; signatures := signatures tx ++ [k] |}.

Definition partialSign (kp : Keypair.t) (tx : Transaction) : Transaction :=
  addSignature (Keypair.publicKey kp) tx.

Inductive Status : Type := pending | confirmed | failed.

Record TransactionHistory : Type := {
  type : string;
  signature : Signature;
  timestamp : Z;
  amount : option number;
  recipient : option string;
  status : Status
}.

(** [{ ...tx, status: st }] *)
Definition with_status (st : Status) (tx : TransactionHistory) : TransactionHistory :=
  {| type := type tx; signature := signature tx; timestamp := timestamp tx;
     amount := amount tx; recipient := recipient tx; status := st |}.

(** What a [throw] carries: an [Error] object with its message, or any
    other value with its [String(...)]. *)
Inductive Thrown : Type :=
| ErrorObject (message : string)
| OtherValue (asString : string).

Inductive result (A : Type) : Type :=
| Ok (a : A)
| Throw (e : Thrown).
Arguments Ok {A} a.
Arguments Throw {A} e.

Definition is_ok {A : Type} (r : result A) : bool :=
  match r with Ok _ => true | Throw _ => false end.

(** Notifications: a template literal is the list of its pieces. *)
Inductive Fragment : Type :=
| Text (s : string)
| Num (n : number).

Inductive Level : Type := error | success.

Record Toast : Type := { level : Level; content : list Fragment }.

(** The state of the hooks of [WalletConnection]. *)
Record Hooks : Type := {
  solBalance : number;
  tokenMint : option PublicKey;
  tokenAccount : option PublicKey;
  tokenBalance : number;
  recipientAddress : string;
  transferAmount : string;
  mintAmount : string;
  isLoading : bool;
  transactionHistory : list TransactionHistory
}.

(** Calls to the collaborators, in the order they were made. *)
Inductive Call : Type :=
| KeypairGenerate
| GetMinimumBalanceForRentExemptMint
| GetLatestBlockhash
| SignTransaction (tx : Transaction)
| SendRawTransaction (tx : Transaction)
| ConfirmTransaction (sig : Signature)
| GetAccount (address : PublicKey)
| GetBalance (address : PublicKey).

Record Event : Type := { call : Call; returned : bool }.

(** Calls that go to the cluster (the others stay in the browser). *)
Definition is_network (c : Call) : bool :=
  match c with
  | KeypairGenerate | SignTransaction _ => false
  | _ => true
  end.

(** A session: the hooks, what [useWallet] currently gives, the toasts
    shown, the collaborator calls made, and the logical time: the number
    of collaborator calls made so far. *)
Record World : Type := {
  hooks : Hooks;
  publicKey : option PublicKey;
  signTransaction : bool;
  toasts : list Toast;
  trace : list Event;
  clock : nat
}.

(** The collaborators.  Answers of the cluster, the wallet and the key
    generator depend on the time of the call; address derivation and
    address parsing are functions of their arguments. *)
Record Env : Type := {
  Keypair_generate : nat -> Keypair.t;
  spl_getMinimumBalanceForRentExemptMint : nat -> result number;
  connection_getLatestBlockhash : nat -> result Blockhash;
  wallet_signTransaction : nat -> Transaction -> result unit;
  connection_sendRawTransaction : nat -> Transaction -> result Signature;
  connection_confirmTransaction : nat -> Signature -> result unit;
  spl_getAccount : nat -> PublicKey -> result Account.t;
  connection_getBalance : nat -> PublicKey -> result number;
  spl_getAssociatedTokenAddress : PublicKey -> PublicKey -> result PublicKey;
  PublicKey_new : string -> result PublicKey;
  Date_now : nat -> Z
}.

(** ** The monad of handlers: state, and exceptions that keep the state *)

Definition M (A : Type) : Type := World -> World * result A.

Definition ret {A : Type} (a : A) : M A := fun w => (w, Ok a).

Definition bind {A B : Type} (m : M A) (k : A -> M B) : M B :=
  fun w =>
    match m w with
    | (w1, Ok a) => k a w1
    | (w1, Throw e) => (w1, Throw e)
    end.

Declare Scope js_scope.
Delimit Scope js_scope with js.
Notation "x <- m ;; k" := (bind m (fun x => k))
  (at level 100, m at next level, right associativity) : js_scope.
Notation "m ;; k" := (bind m (fun _ => k))
  (at level 100, right associativity) : js_scope.
Local Open Scope js_scope.

(** A synchronous expression that may throw. *)
Definition lift {A : Type} (r : result A) : M A := fun w => (w, r).

(** [try { body } catch (e) { handler e } finally { fin }] *)
Definition try_catch_finally (body : M unit) (handler : Thrown -> M unit)
           (fin : M unit) : M unit :=
  fun w =>
    let '(w1, r1) := body w in
    let '(w2, r2) := match r1 with
                     | Ok _ => (w1, Ok tt)
                     | Throw e => handler e w1
                     end in
    let '(w3, r3) := fin w2 in
    match r3 with
    | Ok _ => (w3, r2)
    | Throw e => (w3, Throw e)
    end.

(** [try { body } catch { handler }] *)
Definition try_catch {A : Type} (body : M A) (handler : Thrown -> M A) : M A :=
  fun w =>
    match body w with
    | (w1, Ok a) => (w1, Ok a)
    | (w1, Throw e) => handler e w1
    end.

(** Running a handler created in the render of [w], on [w]. *)
Definition invoke (handler : World -> M unit) (w : World) : World :=
  fst (handler w w).

Definition set_hooks (f : Hooks -> Hooks) : M unit :=
  fun w =>
    ({| hooks := f (hooks w); publicKey := publicKey w;
        signTransaction := signTransaction w; toasts := toasts w;
        trace := trace w; clock := clock w |}, Ok tt).

Definition setSolBalance (v : number) : M unit :=
  set_hooks (fun h =>
    {| solBalance := v; tokenMint := tokenMint h; tokenAccount := tokenAccount h;
       tokenBalance := tokenBalance h; recipientAddress := recipientAddress h;
       transferAmount := transferAmount h; mintAmount := mintAmount h;
       isLoading := isLoading h; transactionHistory := transactionHistory h |}).

Definition setTokenMint (v : option PublicKey) : M unit :=
  set_hooks (fun h =>
    {| solBalance := solBalance h; tokenMint := v; tokenAccount := tokenAccount h;
       tokenBalance := tokenBalance h; recipientAddress := recipientAddress h;
       transferAmount := transferAmount h; mintAmount := mintAmount h;
       isLoading := isLoading h; transactionHistory := transactionHistory h |}).

Definition setTokenAccount (v : option PublicKey) : M unit :=
  set_hooks (fun h =>
    {| solBalance := solBalance h; tokenMint := tokenMint h; tokenAccount := v;
       tokenBalance := tokenBalance h; recipientAddress := recipientAddress h;
       transferAmount := transferAmount h; mintAmount := mintAmount h;
       isLoading := isLoading h; transactionHistory := transactionHistory h |}).

Definition setTokenBalance (v : number) : M unit :=
  set_hooks (fun h =>
    {| solBalance := solBalance h; tokenMint := tokenMint h; tokenAccount := tokenAccount h;
       tokenBalance := v; recipientAddress := recipientAddress h;
       transferAmount := transferAmount h; mintAmount := mintAmount h;
       isLoading := isLoading h; transactionHistory := transactionHistory h |}).

Definition setRecipientAddress (v : string) : M unit :=
  set_hooks (fun h =>
    {| solBalance := solBalance h; tokenMint := tokenMint h; tokenAccount := tokenAccount h;
       tokenBalance := tokenBalance h; recipientAddress := v;
       transferAmount := transferAmount h; mintAmount := mintAmount h;
       isLoading := isLoading h; transactionHistory := transactionHistory h |}).

Definition setTransferAmount (v : string) : M unit :=
  set_hooks (fun h =>
    {| solBalance := solBalance h; tokenMint := tokenMint h; tokenAccount := tokenAccount h;
       tokenBalance := tokenBalance h; recipientAddress := recipientAddress h;
       transferAmount := v; mintAmount := mintAmount h;
       isLoading := isLoading h; transactionHistory := transactionHistory h |}).

Definition setMintAmount (v : string) : M unit :=
  set_hooks (fun h =>
    {| solBalance := solBalance h; tokenMint := tokenMint h; tokenAccount := tokenAccount h;
       tokenBalance := tokenBalance h; recipientAddress := recipientAddress h;
       transferAmount := transferAmount h; mintAmount := v;
       isLoading := isLoading h; transactionHistory := transactionHistory h |}).

Definition setIsLoading (v : bool) : M unit :=
  set_hooks (fun h =>
    {| solBalance := solBalance h; tokenMint := tokenMint h; tokenAccount := tokenAccount h;
       tokenBalance := tokenBalance h; recipientAddress := recipientAddress h;
       transferAmount := transferAmount h; mintAmount := mintAmount h;
       isLoading := v; transactionHistory := transactionHistory h |}).

(** [setTransactionHistory(prev => f prev)] *)
Definition setTransactionHistory
           (f : list TransactionHistory -> list TransactionHistory) : M unit :=
  set_hooks (fun h =>
    {| solBalance := solBalance h; tokenMint := tokenMint h; tokenAccount := tokenAccount h;
       tokenBalance := tokenBalance h; recipientAddress := recipientAddress h;
       transferAmount := transferAmount h; mintAmount := mintAmount h;
       isLoading := isLoading h; transactionHistory := f (transactionHistory h) |}).

Definition toast (l : Level) (msg : list Fragment) : M unit :=
  fun w =>
    ({| hooks := hooks w; publicKey := publicKey w;
        signTransaction := signTransaction w;
        toasts := toasts w ++ [{| level := l; content := msg |}];
        trace := trace w; clock := clock w |}, Ok tt).

Definition toast_error (msg : list Fragment) : M unit := toast error msg.
Definition toast_success (msg : list Fragment) : M unit := toast success msg.

(** [error instanceof Error ? error.message : String(error)] *)
Definition message_or_String (e : Thrown) : string :=
  match e with
  | ErrorObject m => m
  | OtherValue s => s
  end.

(** [error instanceof Error ? error.message : 'Unknown error'] *)
Definition message_or_Unknown (e : Thrown) : string :=
  match e with
  | ErrorObject m => m
  | OtherValue _ => "Unknown error"
  end.

(** [BigInt(Math.floor(x))]: a RangeError on NaN and the infinities. *)
Definition BigInt_floor (x : number) : result Z :=
  match floor_integer x with
  | Some z => Ok z
  | None =>
      Throw (ErrorObject
        match x with
        | S754_infinity false =>
            "The number Infinity cannot be converted to a BigInt because it is not an integer"
        | S754_infinity true =>
            "The number -Infinity cannot be converted to a BigInt because it is not an integer"
        | _ => "The number NaN cannot be converted to a BigInt because it is not an integer"
        end)
  end.

(** ** The handlers of [WalletConnection] *)

Section Handlers.

Variable env : Env.

(** A call to a collaborator at the current time, recorded in the trace. *)
Definition perform {A : Type} (c : Call) (answer : nat -> result A) : M A :=
  fun w =>
    let r := answer (clock w) in
    ({| hooks := hooks w; publicKey := publicKey w;
        signTransaction := signTransaction w; toasts := toasts w;
        trace := trace w ++ [{| call := c; returned := is_ok r |}];
        clock := S (clock w) |}, r).

Definition generate : M Keypair.t :=
  perform KeypairGenerate (fun t => Ok (Keypair_generate env t)).

Definition getMinimumBalanceForRentExemptMint : M number :=
  perform GetMinimumBalanceForRentExemptMint (spl_getMinimumBalanceForRentExemptMint env).

Definition getLatestBlockhash : M Blockhash :=
  perform GetLatestBlockhash (connection_getLatestBlockhash env).

(** The wallet signs the transaction it is given: on approval the signed
    transaction is that transaction with the wallet's signature added. *)
Definition wallet_sign (signer : PublicKey) (tx : Transaction) : M Transaction :=
  perform (SignTransaction tx) (fun t => wallet_signTransaction env t tx) ;;
  ret (addSignature signer tx).

Definition sendRawTransaction (tx : Transaction) : M Signature :=
  perform (SendRawTransaction tx) (fun t => connection_sendRawTransaction env t tx).

Definition confirmTransaction (sig : Signature) : M unit :=
  perform (ConfirmTransaction sig) (fun t => connection_confirmTransaction env t sig).

Definition getAccount (address : PublicKey) : M Account.t :=
  perform (GetAccount address) (fun t => spl_getAccount env t address).

Definition getBalance (address : PublicKey) : M number :=
  perform (GetBalance address) (fun t => connection_getBalance env t address).

Definition getAssociatedTokenAddress (mint owner : PublicKey) : M PublicKey :=
  lift (spl_getAssociatedTokenAddress env mint owner).

(** [new Date()] *)
Definition new_Date : M Z := fun w => (w, Ok (Date_now env (clock w))).

Definition fetchSolBalance (r : World) : M unit :=
  match publicKey r with
  | None => ret tt
  | Some publicKey =>
      try_catch
        (balance <- getBalance publicKey ;;
         setSolBalance (div balance billion))
        (fun error =>
           toast_error [Text "Failed to fetch balance: "; Text (message_or_String error)])
  end.

Definition fetchTokenBalance (r : World) : M unit :=
  match publicKey r, tokenAccount (hooks r) with
  | Some _, Some tokenAccount =>
      try_catch
        (accountInfo <- getAccount tokenAccount ;;
         setTokenBalance (div (of_Z (Account.amount accountInfo)) billion))
        (fun _ => setTokenBalance zero)
  | _, _ => ret tt
  end.

(** The [try] block of [createToken]. *)
Definition createToken_try (r : World) (publicKey : PublicKey) : M unit :=
  mintKeypair <- generate ;;
  lamports <- getMinimumBalanceForRentExemptMint ;;
  recentBlockhash <- getLatestBlockhash ;;
  let transaction :=
    new_Transaction
      [createAccount publicKey (Keypair.publicKey mintKeypair) MINT_SIZE lamports
                     TOKEN_PROGRAM_ID;
       createInitializeMintInstruction (Keypair.publicKey mintKeypair) 9
                     publicKey publicKey TOKEN_PROGRAM_ID] in
  let transaction := prepare recentBlockhash publicKey transaction in
  signed <- wallet_sign publicKey transaction ;;
  let signed := partialSign mintKeypair signed in
  sig <- sendRawTransaction signed ;;
  now <- new_Date ;;
  setTransactionHistory (fun prev => (prev ++
    [{| type := "Token Creation"; signature := sig; timestamp := now;
        amount := None; recipient := None; status := pending |}])%list) ;;
  confirmTransaction sig ;;
  ata <- getAssociatedTokenAddress (Keypair.publicKey mintKeypair) publicKey ;;
  ataBlockhash <- getLatestBlockhash ;;
  let ataTransaction :=
    new_Transaction
      [createAssociatedTokenAccountInstruction publicKey ata publicKey
                     (Keypair.publicKey mintKeypair)] in
  let ataTransaction := prepare ataBlockhash publicKey ataTransaction in
  signedAta <- wallet_sign publicKey ataTransaction ;;
  ataSignature <- sendRawTransaction signedAta ;;
  confirmTransaction ataSignature ;;
  setTokenMint (Some (Keypair.publicKey mintKeypair)) ;;
  setTokenAccount (Some ata) ;;
  (* the refresher of the render [r]: it reads the token account of [r] *)
  fetchTokenBalance r ;;
  setTransactionHistory
    (map (fun tx => if String.eqb (signature tx) sig
                    then with_status confirmed tx else tx)) ;;
  toast_success [Text "Token created successfully!"].

Definition createToken (r : World) : M unit :=
  match publicKey r, signTransaction r with
  | Some publicKey, true =>
      setIsLoading true ;;
      try_catch_finally
        (createToken_try r publicKey)
        (fun error =>
           toast_error [Text "Token creation failed: "; Text (message_or_Unknown error)] ;;
           setTransactionHistory
             (map (fun tx => if String.eqb (type tx) "Token Creation"
                             then with_status failed tx else tx)))
        (setIsLoading false)
  | _, _ => toast_error [Text "Wallet not connected"]
  end.

(** The [try] block of [mintTokens]. *)
Definition mintTokens_try (r : World) (publicKey tokenMint tokenAccount : PublicKey)
           (amount : number) : M unit :=
  quantity <- lift (BigInt_floor (mul amount billion)) ;;
  let transaction :=
    new_Transaction [createMintToInstruction tokenMint tokenAccount publicKey quantity] in
  blockhash <- getLatestBlockhash ;;
  let transaction := prepare blockhash publicKey transaction in
  signed <- wallet_sign publicKey transaction ;;
  sig <- sendRawTransaction signed ;;
  now <- new_Date ;;
  setTransactionHistory (fun prev => (prev ++
    [{| type := "Token Mint"; signature := sig; timestamp := now;
        amount := Some amount; recipient := None; status := pending |}])%list) ;;
  confirmTransaction sig ;;
  fetchTokenBalance r ;;
  setTransactionHistory
    (map (fun tx => if String.eqb (signature tx) sig
                    then with_status confirmed tx else tx)) ;;
  toast_success [Text "Successfully minted "; Num amount; Text " tokens!"] ;;
  setMintAmount "".

(** [mintTokens] from [setIsLoading(true)] on. *)
Definition mintTokens_submit (r : World) (publicKey tokenMint tokenAccount : PublicKey)
           (amount : number) : M unit :=
  setIsLoading true ;;
  try_catch_finally
    (mintTokens_try r publicKey tokenMint tokenAccount amount)
    (fun error =>
       toast_error [Text "Failed to mint tokens: "; Text (message_or_String error)] ;;
       setTransactionHistory
         (map (fun tx => if String.eqb (type tx) "Token Mint"
                         then with_status failed tx else tx)))
    (setIsLoading false).

Definition mintTokens (r : World) : M unit :=
  match publicKey r, signTransaction r, tokenMint (hooks r), tokenAccount (hooks r) with
  | Some publicKey, true, Some tokenMint, Some tokenAccount =>
      let amount := parseFloat (mintAmount (hooks r)) in
      if (isNaN amount || leb amount zero)%bool then
        toast_error [Text "Please enter a valid amount greater than 0"]
      else mintTokens_submit r publicKey tokenMint tokenAccount amount
  | _, _, _, _ => toast_error [Text "Missing required parameters"]
  end.

(** The [try] block of [transferTokens]. *)
Definition transferTokens_try (r : World) (publicKey tokenMint tokenAccount : PublicKey)
           (amount : number) : M unit :=
  recipientPubkey <- lift (PublicKey_new env (recipientAddress (hooks r))) ;;
  recipientTokenAccount <- getAssociatedTokenAddress tokenMint recipientPubkey ;;
  let transaction := new_Transaction [] in
  transaction <-
    try_catch
      (getAccount recipientTokenAccount ;; ret transaction)
      (fun _ =>
         ret (add [createAssociatedTokenAccountInstruction
                     publicKey recipientTokenAccount recipientPubkey tokenMint]
                  transaction)) ;;
  quantity <- lift (BigInt_floor (mul amount billion)) ;;
  let transaction :=
    add [createTransferInstruction tokenAccount recipientTokenAccount publicKey
           quantity [] TOKEN_PROGRAM_ID] transaction in
  blockhash <- getLatestBlockhash ;;
  let transaction := prepare blockhash publicKey transaction in
  signed <- wallet_sign publicKey transaction ;;
  sig <- sendRawTransaction signed ;;
  now <- new_Date ;;
  setTransactionHistory (fun prev => (prev ++
    [{| type := "Token Transfer"; signature := sig; timestamp := now;
        amount := Some amount; recipient := Some (recipientAddress (hooks r));
        status := pending |}])%list) ;;
  confirmTransaction sig ;;
  fetchTokenBalance r ;;
  setTransactionHistory
    (map (fun tx => if String.eqb (signature tx) sig
                    then with_status confirmed tx else tx)) ;;
  toast_success [Text "Transferred "; Num amount; Text " tokens successfully!"] ;;
  setTransferAmount "".

(** [transferTokens] from [setIsLoading(true)] on. *)
Definition transferTokens_submit (r : World) (publicKey tokenMint tokenAccount : PublicKey)
           (amount : number) : M unit :=
  setIsLoading true ;;
  try_catch_finally
    (transferTokens_try r publicKey tokenMint tokenAccount amount)
    (fun error =>
       toast_error [Text "Transfer failed: "; Text (message_or_String error)] ;;
       setTransactionHistory
         (map (fun tx => if String.eqb (type tx) "Token Transfer"
                         then with_status failed tx else tx)))
    (setIsLoading false).

Definition transferTokens (r : World) : M unit :=
  match publicKey r, signTransaction r, tokenMint (hooks r), tokenAccount (hooks r) with
  | Some publicKey, true, Some tokenMint, Some tokenAccount =>
      if (is_empty (recipientAddress (hooks r)) || is_empty (transferAmount (hooks r)))%bool
      then toast_error [Text "Please connect wallet and fill all fields"]
      else
        let amount := parseFloat (transferAmount (hooks r)) in
        if isNaN amount then toast_error [Text "Please enter a valid amount"]
        else if leb amount zero then toast_error [Text "Amount must be greater than 0"]
        else if gtb amount (tokenBalance (hooks r)) then
          toast_error [Text "Insufficient balance. You only have ";
                       Num (tokenBalance (hooks r)); Text " tokens"]
        else transferTokens_submit r publicKey tokenMint tokenAccount amount
  | _, _, _, _ => toast_error [Text "Please connect wallet and fill all fields"]
  end.

(** ** Sessions *)

(** What the page does between two renders: a button runs its handler,
    the timer or an effect refreshes a balance, the user edits a field,
    the wallet connects or disconnects.  A handler is one step: its
    buttons are disabled while [isLoading], and the state updates it makes
    between two awaits are applied together. *)
Inductive step : World -> World -> Prop :=
| step_createToken w : step w (invoke createToken w)
| step_mintTokens w : step w (invoke mintTokens w)
| step_transferTokens w : step w (invoke transferTokens w)
| step_fetchSolBalance w : step w (invoke fetchSolBalance w)
| step_fetchTokenBalance w : step w (invoke fetchTokenBalance w)
| step_recipient v w : step w (fst (setRecipientAddress v w))
| step_transferAmount v w : step w (fst (setTransferAmount v w))
| step_mintAmount v w : step w (fst (setMintAmount v w))
| step_wallet k s w :
    step w {| hooks := hooks w; publicKey := k; signTransaction := s;
              toasts := toasts w; trace := trace w; clock := clock w |}.

Definition initial_hooks : Hooks :=
  {| solBalance := zero; tokenMint := None; tokenAccount := None;
     tokenBalance := zero; recipientAddress := ""; transferAmount := "";
     mintAmount := ""; isLoading := false; transactionHistory := [] |}.

Definition initial (k : option PublicKey) (s : bool) : World :=
  {| hooks := initial_hooks; publicKey := k; signTransaction := s;
     toasts := []; trace := []; clock := O |}.

Inductive reachable : World -> Prop :=
| reachable_initial k s : reachable (initial k s)
| reachable_step w w' : reachable w -> step w w' -> reachable w'.

(** The collaborator calls a step added. *)
Definition appended (w w' : World) : list Event :=
  skipn (List.length (trace w)) (trace w').

End Handlers.

(** ** A sample cluster, for running the handlers *)

Module Sample.

Fixpoint tally (n : nat) : string :=
  match n with
  | O => ""
  | S k => String "I" (tally k)
  end.

Definition wallet : PublicKey := "7xKXtg2CW87d97TXJSDpbD5jBkheTqA83TZRuJosgAsU".
Definition friend : PublicKey := "9WzDXwBbmkg8ZTbNMqUxvQRAyrZzDsGYdLVL9zYtAWWM".

(** A cluster that answers while [up t] holds and fails otherwise, with
    a probe of associated accounts that finds those in [known]. *)
Definition cluster (up : nat -> bool) (known : PublicKey -> bool) (held : Z) : Env :=
  {| Keypair_generate := fun t => {| Keypair.publicKey := "Mint" ++ tally t |};
     spl_getMinimumBalanceForRentExemptMint := fun t =>
       if up t then Ok (of_Z 1461600) else Throw (ErrorObject "failed to get rent");
     connection_getLatestBlockhash := fun t =>
       if up t then Ok ("Hash" ++ tally t) else Throw (ErrorObject "failed to get recent blockhash");
     wallet_signTransaction := fun t _ =>
       if up t then Ok tt else Throw (ErrorObject "User rejected the request.");
     connection_sendRawTransaction := fun t _ =>
       if up t then Ok ("Sig" ++ tally t) else Throw (ErrorObject "failed to send transaction");
     connection_confirmTransaction := fun t _ =>
       if up t then Ok tt else Throw (ErrorObject "Transaction was not confirmed");
     spl_getAccount := fun t a =>
       if (up t && known a)%bool then Ok {| Account.amount := held |}
       else Throw (ErrorObject "TokenAccountNotFoundError");
     connection_getBalance := fun t _ =>
       if up t then Ok (of_Z 2000000000) else Throw (ErrorObject "failed to get balance");
     spl_getAssociatedTokenAddress := fun mint owner => Ok ("Ata/" ++ mint ++ "/" ++ owner);
     PublicKey_new := fun s =>
       if ((32 <=? List.length (list_ascii_of_string s))%nat
           && (List.length (list_ascii_of_string s) <=? 44)%nat)%bool
       then Ok s else Throw (ErrorObject "Invalid public key input");
     Date_now := fun t => 1700000000000 + Z.of_nat t |}.

Definition always (t : nat) : bool := true.
Definition before (n t : nat) : bool := (t <? n)%nat.
Definition everyone (a : PublicKey) : bool := true.

Definition connected : World := initial (Some wallet) true.

(** A cluster that always answers, where the wallet holds 10 tokens. *)
Definition devnet : Env := cluster always everyone 10000000000.

(** The session after a successful [createToken] and the balance
    refresh that follows it. *)
Definition with_token : World :=
  invoke (fetchTokenBalance devnet) (invoke (createToken devnet) connected).

(** A cluster that fails the call made at time [n] only. *)
Definition failing_at (n : nat) : Env :=
  cluster (fun t => negb (t =? n)%nat) everyone 10000000000.

(** A cluster that answers the first [n] calls only. *)
Definition failing_from (n : nat) : Env := cluster (before n) everyone 10000000000.

(** The user fills in the transfer form. *)
Definition typing (recipient amount : string) (w : World) : World :=
  fst (setTransferAmount amount (fst (setRecipientAddress recipient w))).

End Sample.

(** ** Vocabulary of the specification *)

Definition error_toast (msg : string) : Toast :=
  {| level := error; content := [Text msg] |}.

(** The error kinds of the specification, read off the error toast a
    handler shows.  The first guard of [mintTokens] and of
    [transferTokens] has one message for a missing wallet and for the other
    missing parameters. *)
Definition NotConnected (t : Toast) : Prop :=
  t = error_toast "Wallet not connected" \/
  t = error_toast "Missing required parameters" \/
  t = error_toast "Please connect wallet and fill all fields".

Definition InvalidAmount (t : Toast) : Prop :=
  t = error_toast "Please enter a valid amount greater than 0" \/
  t = error_toast "Please enter a valid amount" \/
  t = error_toast "Amount must be greater than 0".

Definition InsufficientBalance (t : Toast) : Prop :=
  exists b, t = {| level := error;
                   content := [Text "Insufficient balance. You only have ";
                               Num b; Text " tokens"] |}.

(** [w] with one more toast and nothing else changed. *)
Definition notified (t : Toast) (w : World) : World :=
  {| hooks := hooks w; publicKey := publicKey w;
     signTransaction := signTransaction w; toasts := toasts w ++ [t];
     trace := trace w; clock := clock w |}.

(** A handler failed on a precondition: it showed one error of the given
    kind and did nothing else (no state change, no collaborator call). *)
Definition fails_with (kind : Toast -> Prop) (w w' : World) : Prop :=
  exists t, kind t /\ w' = notified t w.

(** The transactions handed to the wallet, and those sent to the cluster. *)
Definition signing_requests (evs : list Event) : list Transaction :=
  flat_map (fun e => match call e with SignTransaction tx => [tx] | _ => [] end) evs.

Definition submitted (evs : list Event) : list Transaction :=
  flat_map (fun e => match call e with SendRawTransaction tx => [tx] | _ => [] end) evs.

Definition network_calls (evs : list Event) : list Event :=
  filter (fun e => is_network (call e)) evs.

(** The same, spelling out that nothing reached the cluster and that the
    transaction log is as it was. *)
Definition fails_fast (kind : Toast -> Prop) (w w' : World) : Prop :=
  fails_with kind w w' /\
  network_calls (appended w w') = [] /\
  transactionHistory (hooks w') = transactionHistory (hooks w).


(** What a reader of the transaction log sees of a record. *)
Definition summary (tx : TransactionHistory) : string * Signature * Status :=
  (type tx, signature tx, status tx).

(** A call that returned. *)
Definition returned_ok (c : Call) : Event := {| call := c; returned := true |}.

(** The calls of a [createToken] in which both transactions were confirmed:
    the transaction creating and initialising the mint, signed by the
    wallet and the mint key, then the transaction creating the associated
    account of the wallet, and whatever follows. *)
Definition both_confirmed (pk mint ata : PublicKey) (evs : list Event) : Prop :=
  exists lamports bh1 bh2 sig ataSig rest,
    let creation :=
      prepare bh1 pk
        (new_Transaction
           [createAccount pk mint MINT_SIZE lamports TOKEN_PROGRAM_ID;
            createInitializeMintInstruction mint 9 pk pk TOKEN_PROGRAM_ID]) in
    let association :=
      prepare bh2 pk
        (new_Transaction [createAssociatedTokenAccountInstruction pk ata pk mint]) in
    evs = (map returned_ok
             [KeypairGenerate; GetMinimumBalanceForRentExemptMint;
              GetLatestBlockhash; SignTransaction creation;
              SendRawTransaction (addSignature mint (addSignature pk creation));
              ConfirmTransaction sig;
              GetLatestBlockhash; SignTransaction association;
              SendRawTransaction (addSignature pk association);
              ConfirmTransaction ataSig] ++ rest)%list.

(** The token context is the same in [w] and [w']. *)
Definition same_token (w w' : World) : Prop :=
  tokenMint (hooks w') = tokenMint (hooks w) /\
  tokenAccount (hooks w') = tokenAccount (hooks w).

(** The addresses of the mint accounts that the transactions of a trace
    create. *)
Definition mint_addresses (evs : list Event) : list PublicKey :=
  flat_map
    (fun tx =>
       flat_map (fun ix => match ix with
                           | createAccount _ m _ _ _ => [m]
                           | _ => []
                           end) (instructions tx))
    (signing_requests evs ++ submitted evs).

(** The mint identity that a [createToken] started in [w] generates. *)
Definition attempt_mint (env : Env) (w : World) : PublicKey :=
  Keypair.publicKey (Keypair_generate env (clock w)).

(** Some call other than a balance read failed. *)
Definition some_step_failed (evs : list Event) : Prop :=
  exists e, In e evs /\ returned e = false /\ forall a, call e <> GetAccount a.

(** The mint and the associated account are set together. *)
Definition paired (w : World) : Prop :=
  tokenMint (hooks w) = None <-> tokenAccount (hooks w) = None.

(** Time does not go back. *)
Definition later (w w' : World) : Prop := (clock w <= clock w')%nat.

(** Every run of [m] relates the world it starts in to the one it ends
    in by [R]. *)
Definition respects (R : World -> World -> Prop) {A : Type} (m : M A) : Prop :=
  forall w, R w (fst (m w)).

(** Steps of a session, one after the other. *)
Inductive steps (env : Env) : World -> World -> Prop :=
| steps_none w : steps env w w
| steps_more w1 w2 w3 : steps env w1 w2 -> step env w2 w3 -> steps env w1 w3.

(** ** The earlier revision of [mintTokens]

    The revision of the component before the one with a mint amount
    field: it mints one token, 1000000000 base units, at every click. *)

Module Revision2.

(** The [try] block. *)
Definition mintTokens_try (env : Env) (r : World)
           (publicKey tokenMint tokenAccount : PublicKey) : M unit :=
  (let transaction :=
     new_Transaction [createMintToInstruction tokenMint tokenAccount publicKey 1000000000] in
   blockhash <- getLatestBlockhash env ;;
   let transaction := prepare blockhash publicKey transaction in
   signed <- wallet_sign env publicKey transaction ;;
   sig <- sendRawTransaction env signed ;;
   now <- new_Date env ;;
   setTransactionHistory (fun prev => (prev ++
     [{| type := "Token Mint"; signature := sig; timestamp := now;
         amount := Some (of_Z 1); recipient := None; status := pending |}])%list) ;;
   confirmTransaction env sig ;;
   fetchTokenBalance env r ;;
   setTransactionHistory
     (map (fun tx => if String.eqb (signature tx) sig
                     then with_status confirmed tx else tx)) ;;
   toast_success [Text "Successfully minted 1 token!"])%js.

Definition mintTokens (env : Env) (r : World) : M unit :=
  match publicKey r, signTransaction r, tokenMint (hooks r), tokenAccount (hooks r) with
  | Some publicKey, true, Some tokenMint, Some tokenAccount =>
      (setIsLoading true ;;
       try_catch_finally
         (mintTokens_try env r publicKey tokenMint tokenAccount)
         (fun error =>
            toast_error [Text "Failed to mint tokens: "; Text (message_or_String error)] ;;
            setTransactionHistory
              (map (fun tx => if String.eqb (type tx) "Token Mint"
                              then with_status failed tx else tx)))
         (setIsLoading false))%js
  | _, _, _, _ => toast_error [Text "Missing required parameters"]
  end.

End Revision2.

(** ** What the component renders

    The panel is rendered when a wallet is connected, the mint and the
    transfer sections when a token exists; each button has its [disabled]
    condition. *)

Inductive Control : Type := hidden | disabled | enabled.

(** [disabled={isLoading}] *)
Definition createToken_button (w : World) : Control :=
  match publicKey w with
  | None => hidden
  | Some _ => if isLoading (hooks w) then disabled else enabled
  end.

(** [disabled={isLoading || !mintAmount}], inside [tokenMint && ...] *)
Definition mintTokens_button (w : World) : Control :=
  match publicKey w, tokenMint (hooks w) with
  | Some _, Some _ =>
      if (isLoading (hooks w) || is_empty (mintAmount (hooks w)))%bool
      then disabled else enabled
  | _, _ => hidden
  end.

(** [disabled={isLoading || !transferAmount || !recipientAddress}], inside
    [tokenMint && ...] *)
Definition transferTokens_button (w : World) : Control :=
  match publicKey w, tokenMint (hooks w) with
  | Some _, Some _ =>
      if (isLoading (hooks w) || is_empty (transferAmount (hooks w))
          || is_empty (recipientAddress (hooks w)))%bool
      then disabled else enabled
  | _, _ => hidden
  end.

(** ** More vocabulary *)

(** A record without its status. *)
Definition identity (tx : TransactionHistory) :
  string * Signature * Z * option number * option string :=
  (type tx, signature tx, timestamp tx, amount tx, recipient tx).

(** No record of the log is pending. *)
Definition settled (w : World) : Prop :=
  Forall (fun tx => status tx <> pending) (transactionHistory (hooks w)).

(** The same instructions, blockhash and fee payer. *)
Definition same_message (t1 t2 : Transaction) : Prop :=
  instructions t1 = instructions t2 /\
  recentBlockhash t1 = recentBlockhash t2 /\
  feePayer t1 = feePayer t2.

(** Every transaction sent to the cluster is the one the wallet approved in
    the call just before; [prev] is the call before [evs]. *)
Fixpoint sends_follow_approval (prev : option Event) (evs : list Event) : Prop :=
  match evs with
  | [] => True
  | e :: rest =>
      match call e with
      | SendRawTransaction tx =>
          exists t0, prev = Some (returned_ok (SignTransaction t0)) /\ same_message t0 tx
      | _ => True
      end /\ sends_follow_approval (Some e) rest
  end.

(** Reads of a token account, whose failure a handler tolerates. *)
Definition tolerated (c : Call) : bool :=
  match c with GetAccount _ => true | _ => false end.

(** A call that fails, unless tolerated, is the last one. *)
Fixpoint stops_at_failure (evs : list Event) : Prop :=
  match evs with
  | [] => True
  | e :: rest =>
      (returned e = false -> tolerated (call e) = false -> rest = []) /\
      stops_at_failure rest
  end.

(** [m] returns normally from every world. *)
Definition completes {A : Type} (m : M A) : Prop :=
  forall w, is_ok (snd (m w)) = true.

(** The confirmed transaction of a trace, if it has one. *)
Definition confirmed_signature (sig : Signature) (evs : list Event) : Prop :=
  In (returned_ok (ConfirmTransaction sig)) evs.

(** The marking functions of the handlers:
    [tx => tx.signature === signature ? {...tx, status: 'confirmed'} : tx]
    and [tx => tx.type === T ? {...tx, status: 'failed'} : tx]. *)
Definition confirm_by (sig : Signature) (tx : TransactionHistory) : TransactionHistory :=
  if String.eqb (signature tx) sig then with_status confirmed tx else tx.

Definition fail_by (T : string) (tx : TransactionHistory) : TransactionHistory :=
  if String.eqb (type tx) T then with_status failed tx else tx.

(** An amount that passed the checks of a handler. *)
Definition accepted (a : number) : Prop := isNaN a = false /\ leb a zero = false.

(** A record as the three handlers write them. *)
Definition well_formed (tx : TransactionHistory) : Prop :=
  (type tx = "Token Creation" /\ amount tx = None /\ recipient tx = None) \/
  (type tx = "Token Mint" /\ (exists a, amount tx = Some a /\ accepted a) /\
   recipient tx = None) \/
  (type tx = "Token Transfer" /\ (exists a, amount tx = Some a /\ accepted a) /\
   exists r, recipient tx = Some r /\ is_empty r = false).

(** The signature of the record is an answer of the cluster to a
    transaction that was sent to it in the calls [evs]. *)
Definition issued (env : Env) (evs : list Event) (tx : TransactionHistory) : Prop :=
  exists t sent,
    connection_sendRawTransaction env t sent = Ok (signature tx) /\
    In (returned_ok (SendRawTransaction sent)) evs.

(** The record written when a transaction has been sent, in a step from
    [w] to [w']: it is pending and stamped with the time of a moment of
    that step. *)
Definition entry (env : Env) (w w' : World) (tx : TransactionHistory) : Prop :=
  status tx = pending /\ issued env (appended w w') tx /\ well_formed tx /\
  exists t, timestamp tx = Date_now env t /\ (clock w <= t <= clock w')%nat.

(** How a step changes the log: not at all; or it adds a record and marks
    the records with its signature confirmed, after the cluster confirmed
    that signature; or it adds at most one record and marks the records of
    one type failed. *)
Inductive log_change (env : Env) (w w' : World) : Prop :=
| log_kept :
    transactionHistory (hooks w') = transactionHistory (hooks w) ->
    log_change env w w'
| log_confirmed tx :
    entry env w w' tx ->
    confirmed_signature (signature tx) (appended w w') ->
    transactionHistory (hooks w') =
      map (confirm_by (signature tx)) (transactionHistory (hooks w) ++ [tx])%list ->
    log_change env w w'
| log_failed T new :
    (List.length new <= 1)%nat ->
    Forall (fun tx => entry env w w' tx /\ type tx = T) new ->
    transactionHistory (hooks w') =
      map (fail_by T) (transactionHistory (hooks w) ++ new)%list ->
    log_change env w w'.

(** Every signature of the log was returned by the cluster for a
    transaction sent in the session, and a record shown as confirmed has a
    confirmation of its signature in the trace. *)
Definition vouched (env : Env) (w : World) : Prop :=
  Forall (fun tx => issued env (trace w) tx /\
                    (status tx = confirmed ->
                     confirmed_signature (signature tx) (trace w)))
         (transactionHistory (hooks w)).

(** A token balance that is the initial 0, the 0 of a failed read, or the
    amount of an account read from the cluster, in tokens. *)
Definition token_balance_read (env : Env) (b : number) : Prop :=
  b = zero \/
  exists t a acc, spl_getAccount env t a = Ok acc /\
                  b = div (of_Z (Account.amount acc)) billion.

(** A SOL balance that is the initial 0 or a balance read from the cluster,
    in SOL. *)
Definition sol_balance_read (env : Env) (b : number) : Prop :=
  b = zero \/
  exists t a lamports, connection_getBalance env t a = Ok lamports /\
                       b = div lamports billion.

(** ** The rows of the history table *)

(** JavaScript truthiness of a number. *)
Definition truthy (x : number) : bool :=
  match x with
  | S754_zero _ | S754_nan => false
  | _ => true
  end.

(** A cell shows a value or a dash. *)
Inductive Cell (A : Type) : Type :=
| dash : Cell A
| shown : A -> Cell A.

Arguments dash {A}.
Arguments shown {A} _.

(** [tx.recipient.slice(0, 4)}...{tx.recipient.slice(-4)] *)
Definition short_address (r : string) : string :=
  substring 0 4 r ++ "..." ++ substring (String.length r - 4) 4 r.

(** [tx.amount ? tx.amount.toFixed(6) : '-']: the number that is
    formatted, if one is. *)
Definition amount_cell (tx : TransactionHistory) : Cell number :=
  match amount tx with
  | Some a => if truthy a then shown a else dash
  | None => dash
  end.

(** [tx.recipient ? <span>...</span> : '-'] *)
Definition recipient_cell (tx : TransactionHistory) : Cell string :=
  match recipient tx with
  | Some r => if is_empty r then dash else shown (short_address r)
  | None => dash
  end.

(** ** What every step keeps *)

(** The trace grows by the calls of the step; a transaction is sent only
    after the wallet approved it; a failed call ends the step; the loading
    flag is not left raised; the log changes in one of the three ways; a
    balance that changes is a value read from the cluster; at most one
    toast is shown. *)
Definition orderly (env : Env) (w w' : World) : Prop :=
  trace w' = (trace w ++ appended w w')%list /\
  sends_follow_approval None (appended w w') /\
  stops_at_failure (appended w w') /\
  (isLoading (hooks w) = false -> isLoading (hooks w') = false) /\
  log_change env w w' /\
  (tokenBalance (hooks w') = tokenBalance (hooks w) \/
   token_balance_read env (tokenBalance (hooks w'))) /\
  (solBalance (hooks w') = solBalance (hooks w) \/
   sol_balance_read env (solBalance (hooks w'))) /\
  (toasts w' = toasts w \/ exists t, toasts w' = (toasts w ++ [t])%list).

(** ** The order of the log *)

(** A list of times in which none comes before an earlier one. *)
Fixpoint ascending (l : list Z) : Prop :=
  match l with
  | [] => True
  | x :: rest => Forall (Z.le x) rest /\ ascending rest
  end.

(** The records are in the order of their timestamps, none of them later
    than the present. *)
Definition chronological (env : Env) (w : World) : Prop :=
  ascending (map timestamp (transactionHistory (hooks w))) /\
  Forall (fun tx => timestamp tx <= Date_now env (clock w))
         (transactionHistory (hooks w)).

(** A successful run of the operation appends its record, confirmed, and
    marks the records that have its signature; when no record has that
    signature, it changes no record. *)
Definition success_adds (op : World -> M unit) (w : World) : Prop :=
  forall t,
    toasts (invoke op w) = (toasts w ++ [t])%list -> level t = success ->
    exists tx,
      status tx = confirmed /\
      transactionHistory (hooks (invoke op w)) =
        (map (confirm_by (signature tx)) (transactionHistory (hooks w)) ++ [tx])%list /\
      ((forall old, In old (transactionHistory (hooks w)) ->
                    signature old <> signature tx) ->
       transactionHistory (hooks (invoke op w)) =
         (transactionHistory (hooks w) ++ [tx])%list).

(** ** What is handed to the wallet and what is sent *)

(** Every transaction handed to the wallet comes right after a blockhash
    query that answered, carries a blockhash that the cluster gave, names
    the wallet [pk] as fee payer and is not signed yet; every transaction
    sent has the signature of the wallet first. *)
Fixpoint prepared (env : Env) (pk : PublicKey) (prev : option Event)
         (evs : list Event) : Prop :=
  match evs with
  | [] => True
  | e :: rest =>
      match call e with
      | SignTransaction tx =>
          prev = Some (returned_ok GetLatestBlockhash) /\
          feePayer tx = Some pk /\ signatures tx = [] /\
          exists t bh, recentBlockhash tx = Some bh /\
                       connection_getLatestBlockhash env t = Ok bh
      | SendRawTransaction tx => hd_error (signatures tx) = Some pk
      | _ => True
      end /\ prepared env pk (Some e) rest
  end.

(** ** The order of the calls *)

(** What a call asks for, whatever its arguments. *)
Inductive Kind : Type :=
| generates | asks_rent | asks_blockhash | asks_signature | sends
| asks_confirmation | reads_account | reads_balance.

Definition kind (c : Call) : Kind :=
  match c with
  | KeypairGenerate => generates
  | GetMinimumBalanceForRentExemptMint => asks_rent
  | GetLatestBlockhash => asks_blockhash
  | SignTransaction _ => asks_signature
  | SendRawTransaction _ => sends
  | ConfirmTransaction _ => asks_confirmation
  | GetAccount _ => reads_account
  | GetBalance _ => reads_balance
  end.

(** The calls of a run of each operation in which every call answers. *)
Definition mint_protocol : list Kind :=
  [asks_blockhash; asks_signature; sends; asks_confirmation; reads_account].

Definition transfer_protocol : list Kind := reads_account :: mint_protocol.

Definition creation_protocol : list Kind :=
  [generates; asks_rent; asks_blockhash; asks_signature; sends; asks_confirmation;
   asks_blockhash; asks_signature; sends; asks_confirmation; reads_account].

(** The calls [evs] are the first calls of the protocol, in its order. *)
Fixpoint follows (evs : list Event) (protocol : list Kind) : Prop :=
  match evs, protocol with
  | [], _ => True
  | e :: rest, k :: protocol' => kind (call e) = k /\ follows rest protocol'
  | _ :: _, [] => False
  end.

(** The two transactions of [createToken]: the one that creates and
    initialises the mint [mint], with 9 decimals and the wallet [pk] as mint
    and freeze authority, funded with the rent the cluster asked for; and
    the one that creates the associated account of the wallet. *)
Definition creation_transaction (env : Env) (pk mint : PublicKey) (tx : Transaction) : Prop :=
  (exists t lamports,
     spl_getMinimumBalanceForRentExemptMint env t = Ok lamports /\
     instructions tx =
       [createAccount pk mint MINT_SIZE lamports TOKEN_PROGRAM_ID;
        createInitializeMintInstruction mint 9 pk pk TOKEN_PROGRAM_ID]) \/
  (exists ata,
     spl_getAssociatedTokenAddress env mint pk = Ok ata /\
     instructions tx = [createAssociatedTokenAccountInstruction pk ata pk mint]).

(** The operation shows one toast, a success toast only when the cluster
    confirmed a transaction of the run. *)
Definition announces (op : World -> M unit) (w : World) : Prop :=
  exists t, toasts (invoke op w) = (toasts w ++ [t])%list /\
            (level t = success ->
             exists sig, confirmed_signature sig (appended w (invoke op w))).

(** The operation makes at most [n] calls, and a call that fails is its
    last one, the reads of a token account apart. *)
Definition halts_within (n : nat) (op : World -> M unit) (w : World) : Prop :=
  (List.length (appended w (invoke op w)) <= n)%nat /\
  stops_at_failure (appended w (invoke op w)).

(** ** The build configuration override (src/config-overrides.js)

    [override(config)] replaces [config.resolve.fallback] by a copy with
    five browser polyfills added, pushes one [ProvidePlugin] on
    [config.plugins] and returns the configuration.  The configuration is
    taken with a [resolve] object and a [plugins] array, as the build tool
    passes it; [require.resolve] may throw, which it does before anything
    is assigned. *)

Module ConfigOverrides.

(** The fallback object: its properties in insertion order, which is the
    order of enumeration for names that are not array indices; the values
    are kept as strings. *)
Definition Fallback : Type := list (string * string).

Fixpoint get (k : string) (o : Fallback) : option string :=
  match o with
  | [] => None
  | (k', v) :: rest => if String.eqb k' k then Some v else get k rest
  end.

(** Defining the property [k]: in place if the object has it, else last. *)
Fixpoint set (k v : string) (o : Fallback) : Fallback :=
  match o with
  | [] => [(k, v)]
  | (k', v') :: rest =>
      if String.eqb k' k then (k, v) :: rest else (k', v') :: set k v rest
  end.

Inductive Plugin : Type :=
| ProvidePlugin (definitions : list (string * list string))
| OtherPlugin (name : string).

Record Config : Type := {
  fallback : option Fallback;
  plugins : list Plugin
}.

(** [new webpack.ProvidePlugin({ Buffer: ['buffer', 'Buffer'],
    process: 'process/browser' })] *)
Definition provided : Plugin :=
  ProvidePlugin [("Buffer", ["buffer"; "Buffer"]); ("process", ["process/browser"])].


Definition and_then {A B : Type} (r : result A) (k : A -> result B) : result B :=
  match r with
  | Ok a => k a
  | Throw e => Throw e
  end.

Definition override (require_resolve : string -> result string) (config : Config) :
  result Config :=
  let spread := match fallback config with Some o => o | None => [] end in
  and_then (require_resolve "browserify-zlib") (fun zlib =>
  and_then (require_resolve "stream-http") (fun http =>
  and_then (require_resolve "https-browserify") (fun https =>
  and_then (require_resolve "crypto-browserify") (fun crypto =>
  and_then (require_resolve "stream-browserify") (fun stream =>
    Ok {| fallback :=
            Some (set "stream" stream (set "crypto" crypto (set "https" https
                    (set "http" http (set "zlib" zlib spread)))));
          plugins := plugins config ++ [provided] |}))))).

End ConfigOverrides.

(** * Properties *)

Lemma appended_app (w w' : World) (evs : list Event) :
  trace w' = (trace w ++ evs)%list -> appended w w' = evs.
Proof.
  unfold appended. intros ->.
  induction (trace w) as [|e l IH]; simpl; auto.
Qed.

Lemma appended_notified (t : Toast) (w : World) : appended w (notified t w) = [].
Proof. apply appended_app. simpl. now rewrite app_nil_r. Qed.

Lemma fails_with_frame (kind : Toast -> Prop) (w w' : World) :
  fails_with kind w w' ->
  hooks w' = hooks w /\ appended w w' = [].
Proof.
  intros (t & _ & ->). split; [reflexivity | apply appended_notified].
Qed.

Lemma fails_with_fast (kind : Toast -> Prop) (w w' : World) :
  fails_with kind w w' -> fails_fast kind w w'.
Proof.
  intros F. destruct (fails_with_frame F) as [Hh Ha].
  unfold fails_fast. rewrite Ha, Hh. auto.
Qed.

(** C3. Invoked without a wallet session (no public key, or no signing
    capability), each of [createToken], [mintTokens] and [transferTokens]
    shows its not-connected error and does nothing else: no collaborator
    call is made, hence no network call, and the transaction log is as it
    was. *)
Theorem disconnected_operations_fail_fast (env : Env) (w : World) :
  publicKey w = None \/ signTransaction w = false ->
  forall op,
    In op [createToken env; mintTokens env; transferTokens env] ->
    fails_fast NotConnected w (invoke op w) /\ appended w (invoke op w) = [].
Proof.
  intros Hw op Hop.
  assert (F : fails_with NotConnected w (invoke op w)).
  { unfold fails_with, NotConnected, invoke.
    simpl in Hop.
    destruct Hop as [<- | [<- | [<- | []]]];
      unfold createToken, mintTokens, transferTokens;
      destruct Hw as [-> | Hs].
    all: try (eexists; split; [|reflexivity]; tauto).
    all: rewrite Hs; destruct (publicKey w);
      eexists; (split; [|reflexivity]); tauto. }
  split; [now apply fails_with_fast | apply (fails_with_frame F)].
Qed.

Lemma disconnected_operations_fail_fast_witness :
  fails_fast NotConnected (initial None false)
             (invoke (createToken Sample.devnet) (initial None false)) /\
  appended (initial None false)
           (invoke (createToken Sample.devnet) (initial None false)) = [].
Proof.
  apply (@disconnected_operations_fail_fast Sample.devnet (initial None false)).
  - left. reflexivity.
  - simpl. left. reflexivity.
Defined.




(** ** Running a handler symbolically *)

Ltac unfold_js :=
  cbv beta iota zeta delta
    [bind ret lift perform try_catch try_catch_finally set_hooks
     setSolBalance setTokenMint setTokenAccount setTokenBalance
     setRecipientAddress setTransferAmount setMintAmount setIsLoading
     setTransactionHistory toast toast_error toast_success new_Date
     generate getMinimumBalanceForRentExemptMint getLatestBlockhash
     wallet_sign sendRawTransaction confirmTransaction getAccount getBalance
     getAssociatedTokenAddress invoke fst snd];
  cbn [hooks publicKey signTransaction toasts trace clock is_ok
       solBalance tokenMint tokenAccount tokenBalance recipientAddress
       transferAmount mintAmount isLoading transactionHistory].

Ltac exec_step :=
  match goal with
  | |- context [match ?X with Ok _ => _ | Throw _ => _ end] =>
      let E := fresh "E" in destruct X eqn:E
  end.

Ltac exec := unfold_js; repeat (exec_step; unfold_js).

(** The run of a handler is named, so that it is executed once; at each
    leaf the name is replaced by the world the run ends in. *)
Ltac name_run :=
  match goal with
  | |- context [invoke ?h ?w] =>
      let W := fresh "W" in
      let HW := fresh "HW" in
      remember (invoke h w) as W eqn:HW; revert HW
  end.

Ltac settle_trace :=
  repeat rewrite <- app_assoc; cbn [app];
  intros ->;
  erewrite ?appended_app by reflexivity.

(** C1 (the code departs from it). After a [createToken] that succeeded,
    its record is Confirmed; a second [createToken] that fails (here the
    rent query throws) marks every record of type "Token Creation" as
    failed, so the confirmed record of the first token turns Failed. *)
Theorem confirmed_creation_record_turns_failed :
  let env := Sample.failing_from 11 in
  let w1 := invoke (createToken env) Sample.connected in
  let w2 := invoke (createToken env) w1 in
  reachable env w2 /\
  map summary (transactionHistory (hooks w1)) = [("Token Creation", "SigIIII", confirmed)] /\
  map summary (transactionHistory (hooks w2)) = [("Token Creation", "SigIIII", failed)].
Proof.
  split.
  - eapply reachable_step; [eapply reachable_step; [apply reachable_initial|] |];
      apply step_createToken.
  - vm_compute. split; reflexivity.
Qed.

(** What [transferTokens] does when the recipient is not an address: no
    collaborator is called and no record is added, an error toast is shown,
    and every record of type "Token Transfer" is marked failed. *)
Lemma invalid_recipient_outcome (env : Env) (w : World)
      (pk mint acct : PublicKey) (e : Thrown) :
  publicKey w = Some pk -> signTransaction w = true ->
  tokenMint (hooks w) = Some mint -> tokenAccount (hooks w) = Some acct ->
  is_empty (recipientAddress (hooks w)) = false ->
  is_empty (transferAmount (hooks w)) = false ->
  isNaN (parseFloat (transferAmount (hooks w))) = false ->
  leb (parseFloat (transferAmount (hooks w))) zero = false ->
  gtb (parseFloat (transferAmount (hooks w))) (tokenBalance (hooks w)) = false ->
  PublicKey_new env (recipientAddress (hooks w)) = Throw e ->
  invoke (transferTokens env) w =
    fst ((toast_error [Text "Transfer failed: "; Text (message_or_String e)] ;;
          setTransactionHistory
            (map (fun tx => if String.eqb (type tx) "Token Transfer"
                            then with_status failed tx else tx)) ;;
          setIsLoading false)%js w).
Proof.
  intros Hpk Hs Hm Ha Hr Ht Hn Hz Hb He.
  unfold invoke, transferTokens. rewrite Hpk, Hs, Hm, Ha, Hr, Ht, Hn, Hz, Hb.
  cbn [orb]. unfold transferTokens_submit, transferTokens_try. rewrite He.
  reflexivity.
Qed.

(** C5 (the code departs from it). A transfer to a recipient that is not
    an address makes no collaborator call and adds no record, but its
    [catch] marks every record of type "Token Transfer" as failed: the
    confirmed record of an earlier transfer is mutated. *)
Theorem invalid_recipient_mutates_confirmed_transfer :
  let env := Sample.devnet in
  let w := Sample.typing "not-an-address" "1"
             (invoke (transferTokens env) (Sample.typing Sample.friend "5" Sample.with_token)) in
  let w' := invoke (transferTokens env) w in
  PublicKey_new env (recipientAddress (hooks w)) = Throw (ErrorObject "Invalid public key input") /\
  appended w w' = [] /\
  map summary (transactionHistory (hooks w)) =
    [("Token Creation", "SigIIII", confirmed);
     ("Token Transfer", "SigIIIIIIIIIIIIII", confirmed)] /\
  map summary (transactionHistory (hooks w')) =
    [("Token Creation", "SigIIII", confirmed);
     ("Token Transfer", "SigIIIIIIIIIIIIII", failed)].
Proof. vm_compute. repeat split; reflexivity. Qed.


(** The same instruction for the amount 2.01 carries 2009999999 base
    units. *)
Example mint_of_2_01 :
  let w := fst (setMintAmount "2.01" Sample.with_token) in
  map instructions (submitted (appended w (invoke (mintTokens Sample.devnet) w))) =
    [[createMintToInstruction "Mint" ("Ata/Mint/" ++ Sample.wallet) Sample.wallet 2009999999]].
Proof. vm_compute. reflexivity. Qed.



(** C8, as stated, fails for the token balance: when the read of the token
    account fails, the stored token balance (10 here) is replaced by 0. *)
Lemma failed_token_refresh_resets_balance :
  let env := Sample.failing_from 11 in
  let w := Sample.with_token in
  let w' := invoke (fetchTokenBalance env) w in
  appended w w' =
    [{| call := GetAccount ("Ata/Mint/" ++ Sample.wallet); returned := false |}] /\
  tokenBalance (hooks w) = of_Z 10 /\
  tokenBalance (hooks w') = zero /\
  hooks w' <> hooks w.
Proof.
  repeat split; try (vm_compute; reflexivity).
  intros H. apply (f_equal tokenBalance) in H. vm_compute in H. discriminate H.
Qed.

(** C8, amended. A balance refresh whose read fails never throws.  For
    the SOL balance the hooks state is retained unchanged and one error
    toast is shown.  For the token balance the stored balance is set to 0,
    every other field of the hooks state is retained, and no toast is
    shown. *)
Theorem failed_refresh_frame (env : Env) (w : World) (pk : PublicKey) :
  publicKey w = Some pk ->
  (forall e, connection_getBalance env (clock w) pk = Throw e ->
     fetchSolBalance env w w =
       ({| hooks := hooks w; publicKey := publicKey w;
           signTransaction := signTransaction w;
           toasts := toasts w ++
             [{| level := error;
                 content := [Text "Failed to fetch balance: ";
                             Text (message_or_String e)] |}];
           trace := trace w ++ [{| call := GetBalance pk; returned := false |}];
           clock := S (clock w) |},
        Ok tt)) /\
  (forall acct e, tokenAccount (hooks w) = Some acct ->
     spl_getAccount env (clock w) acct = Throw e ->
     fetchTokenBalance env w w =
       ({| hooks := hooks (fst (setTokenBalance zero w)); publicKey := publicKey w;
           signTransaction := signTransaction w;
           toasts := toasts w;
           trace := trace w ++ [{| call := GetAccount acct; returned := false |}];
           clock := S (clock w) |},
        Ok tt)).
Proof.
  intros Hpk. split.
  - intros e He. unfold fetchSolBalance. rewrite Hpk.
    unfold_js. rewrite He. unfold_js.
    rewrite ?Hpk. reflexivity.
  - intros acct e Ha He. unfold fetchTokenBalance. rewrite Hpk, Ha.
    unfold_js. rewrite He. unfold_js.
    rewrite ?Hpk. reflexivity.
Qed.

Lemma failed_refresh_frame_witness :
  let env := Sample.failing_from 11 in
  let w := Sample.with_token in
  fetchTokenBalance env w w =
    ({| hooks := hooks (fst (setTokenBalance zero w)); publicKey := publicKey w;
        signTransaction := signTransaction w;
        toasts := toasts w;
        trace := trace w ++ [{| call := GetAccount ("Ata/Mint/" ++ Sample.wallet);
                                returned := false |}];
        clock := S (clock w) |},
     Ok tt).
Proof.
  intros env w.
  refine (proj2 (@failed_refresh_frame env w Sample.wallet eq_refl)
                ("Ata/Mint/" ++ Sample.wallet)
                (ErrorObject "TokenAccountNotFoundError") _ _);
    vm_compute; reflexivity.
Defined.



(** ** The run of [createToken] *)

Lemma createToken_run (env : Env) (w : World) (pk : PublicKey) :
  publicKey w = Some pk -> signTransaction w = true ->
  let w' := invoke (createToken env) w in
  let evs := appended w w' in
  clock w' = (clock w + List.length evs)%nat /\
  (exists rest, evs = returned_ok KeypairGenerate :: rest) /\
  (forall m, In m (mint_addresses evs) -> m = attempt_mint env w) /\
  (same_token w w' \/
   (tokenMint (hooks w') = Some (attempt_mint env w) /\
    exists ata, tokenAccount (hooks w') = Some ata /\
                both_confirmed pk (attempt_mint env w) ata evs)) /\
  (some_step_failed evs -> same_token w w') /\
  (is_ok (spl_getAssociatedTokenAddress env (attempt_mint env w) pk) = false ->
   same_token w w').
Proof.
  intros Hpk Hs w' evs. subst evs w'. name_run.
  unfold invoke, createToken, attempt_mint, same_token, some_step_failed.
  rewrite Hpk, Hs.
  unfold createToken_try, fetchTokenBalance. rewrite Hpk.
  destruct (tokenAccount (hooks w)) as [old|] eqn:Hold.
  all: exec.
  all: settle_trace.
  all: cbn [hooks clock tokenMint tokenAccount List.length].
  all: (split; [lia|]).
  all: (split; [eexists; reflexivity|]).
  all: (split; [intros m Hin; cbn in Hin; intuition (subst; reflexivity) |]).
  all: split;
    [ first [ left; split; first [reflexivity | assumption]
            | right; split; [reflexivity|]; eexists; split; [reflexivity|];
              unfold both_confirmed; do 6 eexists; cbn; reflexivity ] |].
  all: split;
    [ first [ intros _; split; first [reflexivity | assumption]
            | intros (failing & Hin & Hr & Hc); exfalso; cbn in Hin;
              repeat (destruct Hin as [<- | Hin];
                      [ cbn in Hr; first [discriminate Hr | eapply Hc; reflexivity] |]);
              exact Hin ]
    | first [ intros _; split; first [reflexivity | assumption]
            | intros Hd; discriminate Hd ] ].
Qed.

(** ** Relations that every step of a handler respects *)

Section Respects.

Variable R : World -> World -> Prop.
Hypothesis R_refl : forall w, R w w.
Hypothesis R_trans : forall w1 w2 w3, R w1 w2 -> R w2 w3 -> R w1 w3.

Lemma respects_ret (A : Type) (a : A) : respects R (ret a).
Proof. intros w. apply R_refl. Qed.

Lemma respects_lift (A : Type) (r : result A) : respects R (lift r).
Proof. intros w. apply R_refl. Qed.

Lemma respects_new_Date (env : Env) : respects R (new_Date env).
Proof. intros w. apply R_refl. Qed.

Lemma respects_bind (A B : Type) (m : M A) (k : A -> M B) :
  respects R m -> (forall a, respects R (k a)) -> respects R (bind m k).
Proof.
  intros Hm Hk w. unfold bind. specialize (Hm w).
  destruct (m w) as [w1 [a|e]]; simpl in *.
  - eapply R_trans; [exact Hm | apply Hk].
  - exact Hm.
Qed.

Lemma respects_try_catch (A : Type) (body : M A) (handler : Thrown -> M A) :
  respects R body -> (forall e, respects R (handler e)) ->
  respects R (try_catch body handler).
Proof.
  intros Hb Hh w. unfold try_catch. specialize (Hb w).
  destruct (body w) as [w1 [a|e]]; simpl in *.
  - exact Hb.
  - eapply R_trans; [exact Hb | apply Hh].
Qed.

Lemma respects_try_catch_finally (body : M unit) (handler : Thrown -> M unit)
      (fin : M unit) :
  respects R body -> (forall e, respects R (handler e)) -> respects R fin ->
  respects R (try_catch_finally body handler fin).
Proof.
  intros Hb Hh Hf w. unfold try_catch_finally. specialize (Hb w).
  destruct (body w) as [w1 [a|e]]; simpl in Hb.
  - specialize (Hf w1). destruct (fin w1) as [w3 [u|e]]; simpl in *;
      eapply R_trans; eauto.
  - specialize (Hh e w1). destruct (handler e w1) as [w2 r2]; simpl in Hh.
    specialize (Hf w2). destruct (fin w2) as [w3 [u|e']]; simpl in *;
      eapply R_trans; eauto.
Qed.

End Respects.

(** Walks down a handler; [prim] settles its primitive steps. *)
Ltac respects_by refl trans prim :=
  repeat first
    [ apply (respects_ret _ refl)
    | apply (respects_lift _ refl)
    | apply (respects_new_Date _ refl)
    | apply (respects_bind trans); [| intros ?]
    | apply (respects_try_catch trans); [| intros ?]
    | apply (respects_try_catch_finally trans); [| intros ? |]
    | match goal with
      | |- respects _ (match ?x with _ => _ end) => destruct x
      | |- respects _ (if ?b then _ else _) => destruct b
      end
    | solve [prim] ].

Ltac open_handlers :=
  unfold createToken, createToken_try, mintTokens, mintTokens_submit,
    mintTokens_try, transferTokens, transferTokens_submit, transferTokens_try,
    fetchSolBalance, fetchTokenBalance, generate,
    getMinimumBalanceForRentExemptMint, getLatestBlockhash, wallet_sign,
    sendRawTransaction, confirmTransaction, getAccount, getBalance,
    getAssociatedTokenAddress, toast_error, toast_success; cbv zeta.

Lemma same_token_refl (w : World) : same_token w w.
Proof. split; reflexivity. Qed.

Lemma same_token_trans (w1 w2 w3 : World) :
  same_token w1 w2 -> same_token w2 w3 -> same_token w1 w3.
Proof. intros [H1 H2] [H3 H4]. split; congruence. Qed.

Lemma later_refl (w : World) : later w w.
Proof. unfold later. lia. Qed.

Lemma later_trans (w1 w2 w3 : World) : later w1 w2 -> later w2 w3 -> later w1 w3.
Proof. unfold later. lia. Qed.

(** The handlers other than [createToken] leave the token context alone. *)
Lemma other_handlers_keep_token (env : Env) (r : World) :
  respects same_token (mintTokens env r) /\
  respects same_token (transferTokens env r) /\
  respects same_token (fetchSolBalance env r) /\
  respects same_token (fetchTokenBalance env r).
Proof.
  split; [|split; [|split]]; open_handlers.
  all: respects_by same_token_refl same_token_trans
         ltac:(intros ?; split; reflexivity).
Qed.

(** No handler turns the clock back. *)
Lemma handlers_later (env : Env) (r : World) :
  respects later (createToken env r) /\
  respects later (mintTokens env r) /\
  respects later (transferTokens env r) /\
  respects later (fetchSolBalance env r) /\
  respects later (fetchTokenBalance env r).
Proof.
  split; [|split; [|split; [|split]]]; open_handlers.
  all: respects_by later_refl later_trans
         ltac:(intros ?; unfold later; cbn; lia).
Qed.

Lemma step_later (env : Env) (w w' : World) : step env w w' -> later w w'.
Proof.
  intros H. destruct H as [w|w|w|w|w|v w|v w|v w|k s w];
    try (destruct (handlers_later env w) as (H1 & H2 & H3 & H4 & H5));
    unfold invoke; try solve [apply H1 | apply H2 | apply H3 | apply H4 | apply H5];
    unfold later; cbn; lia.
Qed.


(** [createToken] leaves the token context alone or sets both fields. *)
Lemma createToken_commits (env : Env) (w : World) :
  let w' := invoke (createToken env) w in
  same_token w w' \/
  exists pk mint ata,
    publicKey w = Some pk /\
    tokenMint (hooks w') = Some mint /\ tokenAccount (hooks w') = Some ata /\
    both_confirmed pk mint ata (appended w w').
Proof.
  intros w'.
  destruct (publicKey w) as [pk|] eqn:Hpk;
    [destruct (signTransaction w) eqn:Hs|].
  - destruct (createToken_run env w Hpk Hs) as (_ & _ & _ & [H | (Hm & ata & Ha & Hc)] & _).
    + left. exact H.
    + right. exists pk, (attempt_mint env w), ata. auto.
  - left. subst w'. unfold invoke, createToken. rewrite Hpk, Hs. split; reflexivity.
  - left. subst w'. unfold invoke, createToken. rewrite Hpk. split; reflexivity.
Qed.

Lemma step_paired (env : Env) (w w' : World) : step env w w' -> paired w -> paired w'.
Proof.
  assert (K : forall w w', same_token w w' -> paired w -> paired w').
  { unfold paired. intros ? ? [-> ->]. auto. }
  intros H. destruct H as [w|w|w|w|w|v w|v w|v w|k s w]; intros P.
  - destruct (createToken_commits env w) as [H | (pk & mint & ata & _ & Hm & Ha & _)].
    + apply (K w); assumption.
    + unfold paired, invoke in *. rewrite Hm, Ha. split; discriminate.
  - apply (K w); [apply (other_handlers_keep_token env w) | exact P].
  - apply (K w); [apply (other_handlers_keep_token env w) | exact P].
  - apply (K w); [apply (other_handlers_keep_token env w) | exact P].
  - apply (K w); [apply (other_handlers_keep_token env w) | exact P].
  - exact P.
  - exact P.
  - exact P.
  - exact P.
Qed.

(** C2. In every reachable session the mint and the associated account
    are both null or both set.  [createToken] leaves them as they were
    unless its calls all returned, the confirmation of the mint-creation
    transaction and then that of the associated-account transaction among
    them, in which case it sets both.  When a call other than the closing
    balance read fails, or the derivation of the associated address
    throws, both are as they were: null if they were null. *)
Theorem token_context_set_as_a_pair (env : Env) :
  (forall w, reachable env w -> paired w) /\
  (forall w,
     let w' := invoke (createToken env) w in
     same_token w w' \/
     exists pk mint ata,
       publicKey w = Some pk /\
       tokenMint (hooks w') = Some mint /\ tokenAccount (hooks w') = Some ata /\
       both_confirmed pk mint ata (appended w w')) /\
  (forall w,
     let w' := invoke (createToken env) w in
     (some_step_failed (appended w w') \/
      exists pk, publicKey w = Some pk /\
                 is_ok (spl_getAssociatedTokenAddress env (attempt_mint env w) pk) = false) ->
     same_token w w' /\
     (tokenMint (hooks w) = None -> tokenAccount (hooks w) = None ->
      tokenMint (hooks w') = None /\ tokenAccount (hooks w') = None)).
Proof.
  split; [|split].
  - induction 1 as [k s | w w' _ IH Hstep].
    + unfold paired. simpl. tauto.
    + eapply step_paired; eassumption.
  - apply createToken_commits.
  - intros w w' Hfail.
    assert (S : same_token w w').
    { destruct (publicKey w) as [pk|] eqn:Hpk;
        [destruct (signTransaction w) eqn:Hs|].
      - destruct (createToken_run env w Hpk Hs) as (_ & _ & _ & _ & Hf & Hd).
        destruct Hfail as [Hfail | (pk' & Hpk' & Hfail)]; [auto|].
        injection Hpk' as <-. auto.
      - subst w'. unfold invoke, createToken. rewrite Hpk, Hs. split; reflexivity.
      - subst w'. unfold invoke, createToken. rewrite Hpk. split; reflexivity. }
    split; [exact S|]. destruct S as [-> ->]. auto.
Qed.






(** After a submission that failed, the retry asks the wallet to sign for
    a mint account at another address. *)
Example retry_after_failed_submission :
  let env := Sample.failing_at 4 in
  let w1 := Sample.connected in
  let w2 := invoke (createToken env) w1 in
  map summary (transactionHistory (hooks w2)) = [] /\
  mint_addresses (appended w1 w2) = ["Mint"; "Mint"] /\
  mint_addresses (appended w2 (invoke (createToken env) w2)) = ["MintIIIII"; "MintIIIII"].
Proof. vm_compute. repeat split; reflexivity. Qed.

(** ** [parseFloat] reads a prefix *)
















(** Minting "5abc" submits a mint-to of 5 tokens. *)
Example mint_of_5abc :
  let w := fst (setMintAmount "5abc" Sample.with_token) in
  map instructions (submitted (appended w (invoke (mintTokens Sample.devnet) w))) =
    [[createMintToInstruction "Mint" ("Ata/Mint/" ++ Sample.wallet) Sample.wallet 5000000000]].
Proof. vm_compute. reflexivity. Qed.

(** ** What a run leaves behind *)

Lemma appended_nil (w w' : World) : trace w' = trace w -> appended w w' = [].
Proof. intros H. apply appended_app. rewrite H. now rewrite app_nil_r. Qed.

(** [settle_trace], also for a run without calls. *)
Ltac settle_run := settle_trace; erewrite ?appended_nil by reflexivity.

Ltac conj_step tac := split; [tac |].

(** The order of signing and sending in a trace that is written out. *)
Ltac approve :=
  cbn [sends_follow_approval call];
  repeat match goal with
         | |- _ /\ _ => split
         | |- True => exact I
         | |- exists _, _ => eexists
         | |- same_message _ _ => unfold same_message
         | |- _ = _ => reflexivity
         end.

Ltac halting :=
  cbn [stops_at_failure call returned tolerated];
  repeat match goal with
         | |- _ /\ _ => split
         | |- True => exact I
         | |- _ -> _ => intro
         | H : true = false |- _ => discriminate H
         | |- _ = _ => reflexivity
         end.

(** Splits a membership hypothesis in a list that is written out. *)
Ltac cases_in H :=
  cbn in H; unfold returned_ok in H;
  repeat match type of H with
         | _ \/ _ => destruct H as [H | H]; [try discriminate H |]
         | False => contradiction
         end.

(** Finds an element in a list that is written out. *)
Ltac find_in := cbn; unfold returned_ok; solve [repeat first [left; reflexivity | right]].

(** The token accounts read in a trace that is written out. *)
Ltac reads :=
  let ev := fresh "ev" in
  let a' := fresh "a'" in
  let Hin := fresh "Hin" in
  let Hc := fresh "Hc" in
  intros ev a' Hin Hc; cbn in Hin;
  repeat (destruct Hin as [<- | Hin];
          [cbn in Hc; first [discriminate Hc | injection Hc as <-; reflexivity] |]);
  contradiction.

Ltac unconfirmed :=
  let sig := fresh "sig" in
  let Hin := fresh "Hin" in
  intros sig Hin; cases_in Hin.

Ltac new_entry :=
  right; eexists _, _; split; [reflexivity|];
  split; [eexists _, _; split; [eassumption | find_in]
        | eexists; split; [reflexivity | lia]].

(** What a [mintTokens] that passes its guards does: its calls, what it
    leaves alone, and the two ways it ends. *)
Lemma mintTokens_effects (env : Env) (w : World) (pk mint acct : PublicKey) :
  publicKey w = Some pk -> signTransaction w = true ->
  tokenMint (hooks w) = Some mint -> tokenAccount (hooks w) = Some acct ->
  let a := parseFloat (mintAmount (hooks w)) in
  isNaN a = false -> leb a zero = false ->
  let w' := invoke (mintTokens env) w in
  let evs := appended w w' in
  trace w' = (trace w ++ evs)%list /\
  isLoading (hooks w') = false /\
  (solBalance (hooks w') = solBalance (hooks w) /\
   same_token w w' /\
   recipientAddress (hooks w') = recipientAddress (hooks w) /\
   transferAmount (hooks w') = transferAmount (hooks w)) /\
  (List.length evs <= 5)%nat /\
  sends_follow_approval None evs /\
  stops_at_failure evs /\
  (forall e a', In e evs -> call e = GetAccount a' -> a' = acct) /\
  ((exists sig ts,
      confirmed_signature sig evs /\
      (exists t sent, connection_sendRawTransaction env t sent = Ok sig /\
                      In (returned_ok (SendRawTransaction sent)) evs) /\
      toasts w' = (toasts w ++
        [{| level := success;
            content := [Text "Successfully minted "; Num a; Text " tokens!"] |}])%list /\
      transactionHistory (hooks w') =
        map (confirm_by sig)
            (transactionHistory (hooks w) ++
             [{| type := "Token Mint"; signature := sig; timestamp := ts;
                 amount := Some a; recipient := None; status := pending |}])%list /\
      (exists t, ts = Date_now env t /\ (clock w <= t <= clock w')%nat) /\
      mintAmount (hooks w') = "" /\
      (tokenBalance (hooks w') = zero \/
       exists t acc, spl_getAccount env t acct = Ok acc /\
                     tokenBalance (hooks w') = div (of_Z (Account.amount acc)) billion)) \/
   (exists e new,
      (forall sig, ~ confirmed_signature sig evs) /\
      toasts w' = (toasts w ++
        [{| level := error;
            content := [Text "Failed to mint tokens: "; Text (message_or_String e)] |}])%list /\
      transactionHistory (hooks w') =
        map (fail_by "Token Mint") (transactionHistory (hooks w) ++ new)%list /\
      (new = [] \/
       exists sig ts,
         new = [{| type := "Token Mint"; signature := sig; timestamp := ts;
                   amount := Some a; recipient := None; status := pending |}] /\
         (exists t sent, connection_sendRawTransaction env t sent = Ok sig /\
                      In (returned_ok (SendRawTransaction sent)) evs) /\
         exists t, ts = Date_now env t /\ (clock w <= t <= clock w')%nat) /\
      mintAmount (hooks w') = mintAmount (hooks w) /\
      tokenBalance (hooks w') = tokenBalance (hooks w))).
Proof.
  intros Hpk Hs Hm Ha a Hn Hz w' evs. subst evs w'. name_run.
  unfold invoke, mintTokens, same_token, confirmed_signature.
  rewrite Hpk, Hs, Hm, Ha. fold a. rewrite Hn, Hz. cbn [orb].
  unfold mintTokens_submit, mintTokens_try, fetchTokenBalance. rewrite Hpk, Ha.
  exec.
  all: settle_run.
  all: cbn [hooks toasts trace clock isLoading transactionHistory solBalance tokenMint tokenAccount
            recipientAddress transferAmount mintAmount tokenBalance List.length].
  all: conj_step ltac:(rewrite ?app_nil_r; reflexivity).
  all: conj_step ltac:(reflexivity).
  all: conj_step ltac:(repeat split; first [reflexivity | assumption]).
  all: conj_step ltac:(lia).
  all: conj_step ltac:(approve).
  all: conj_step ltac:(halting).
  all: conj_step ltac:(reads).
  all: first
         [ left; eexists _, _; split; [find_in|];
           split; [eexists _, _; split; [eassumption | find_in]|];
           split; [reflexivity|]; split; [reflexivity|];
           split; [eexists; split; [reflexivity | lia]|]; split; [reflexivity|];
           first [ left; reflexivity
                 | right; eexists _, _; split; [eassumption | reflexivity] ]
         | right; eexists _, []; split; [unconfirmed|];
           split; [reflexivity|]; split; [rewrite app_nil_r; reflexivity|];
           split; [left; reflexivity|]; split; reflexivity
         | right; eexists _, [_]; split; [unconfirmed|];
           split; [reflexivity|]; split; [reflexivity|];
           split; [new_entry|]; split; reflexivity ].
Qed.

(** The same for [transferTokens]. *)
Lemma transferTokens_effects (env : Env) (w : World) (pk mint acct : PublicKey) :
  publicKey w = Some pk -> signTransaction w = true ->
  tokenMint (hooks w) = Some mint -> tokenAccount (hooks w) = Some acct ->
  is_empty (recipientAddress (hooks w)) = false ->
  is_empty (transferAmount (hooks w)) = false ->
  let a := parseFloat (transferAmount (hooks w)) in
  isNaN a = false -> leb a zero = false ->
  gtb a (tokenBalance (hooks w)) = false ->
  let w' := invoke (transferTokens env) w in
  let evs := appended w w' in
  trace w' = (trace w ++ evs)%list /\
  isLoading (hooks w') = false /\
  (solBalance (hooks w') = solBalance (hooks w) /\
   same_token w w' /\
   recipientAddress (hooks w') = recipientAddress (hooks w) /\
   mintAmount (hooks w') = mintAmount (hooks w)) /\
  (List.length evs <= 6)%nat /\
  sends_follow_approval None evs /\
  stops_at_failure evs /\
  ((exists sig ts,
      confirmed_signature sig evs /\
      (exists t sent, connection_sendRawTransaction env t sent = Ok sig /\
                      In (returned_ok (SendRawTransaction sent)) evs) /\
      toasts w' = (toasts w ++
        [{| level := success;
            content := [Text "Transferred "; Num a; Text " tokens successfully!"] |}])%list /\
      transactionHistory (hooks w') =
        map (confirm_by sig)
            (transactionHistory (hooks w) ++
             [{| type := "Token Transfer"; signature := sig; timestamp := ts;
                 amount := Some a; recipient := Some (recipientAddress (hooks w));
                 status := pending |}])%list /\
      (exists t, ts = Date_now env t /\ (clock w <= t <= clock w')%nat) /\
      transferAmount (hooks w') = "" /\
      (tokenBalance (hooks w') = zero \/
       exists t acc, spl_getAccount env t acct = Ok acc /\
                     tokenBalance (hooks w') = div (of_Z (Account.amount acc)) billion)) \/
   (exists e new,
      (forall sig, ~ confirmed_signature sig evs) /\
      toasts w' = (toasts w ++
        [{| level := error;
            content := [Text "Transfer failed: "; Text (message_or_String e)] |}])%list /\
      transactionHistory (hooks w') =
        map (fail_by "Token Transfer") (transactionHistory (hooks w) ++ new)%list /\
      (new = [] \/
       exists sig ts,
         new = [{| type := "Token Transfer"; signature := sig; timestamp := ts;
                   amount := Some a; recipient := Some (recipientAddress (hooks w));
                   status := pending |}] /\
         (exists t sent, connection_sendRawTransaction env t sent = Ok sig /\
                      In (returned_ok (SendRawTransaction sent)) evs) /\
         exists t, ts = Date_now env t /\ (clock w <= t <= clock w')%nat) /\
      transferAmount (hooks w') = transferAmount (hooks w) /\
      tokenBalance (hooks w') = tokenBalance (hooks w))).
Proof.
  intros Hpk Hs Hm Ha Hr Ht a Hn Hz Hb w' evs. subst evs w'. name_run.
  unfold invoke, transferTokens, same_token, confirmed_signature.
  rewrite Hpk, Hs, Hm, Ha, Hr, Ht. fold a. rewrite Hn, Hz, Hb. cbn [orb].
  unfold transferTokens_submit, transferTokens_try, fetchTokenBalance. rewrite Hpk, Ha.
  exec.
  all: settle_run.
  all: cbn [hooks toasts trace clock isLoading transactionHistory solBalance tokenMint tokenAccount
            recipientAddress transferAmount mintAmount tokenBalance List.length].
  all: conj_step ltac:(rewrite ?app_nil_r; reflexivity).
  all: conj_step ltac:(reflexivity).
  all: conj_step ltac:(repeat split; first [reflexivity | assumption]).
  all: conj_step ltac:(lia).
  all: conj_step ltac:(approve).
  all: conj_step ltac:(halting).
  all: first
         [ left; eexists _, _; split; [find_in|];
           split; [eexists _, _; split; [eassumption | find_in]|];
           split; [reflexivity|]; split; [reflexivity|];
           split; [eexists; split; [reflexivity | lia]|]; split; [reflexivity|];
           first [ left; reflexivity
                 | right; eexists _, _; split; [eassumption | reflexivity] ]
         | right; eexists _, []; split; [unconfirmed|];
           split; [reflexivity|]; split; [rewrite app_nil_r; reflexivity|];
           split; [left; reflexivity|]; split; reflexivity
         | right; eexists _, [_]; split; [unconfirmed|];
           split; [reflexivity|]; split; [reflexivity|];
           split; [new_entry|]; split; reflexivity ].
Qed.

(** The same for [createToken], whose only guard is the wallet session. *)
Lemma createToken_effects (env : Env) (w : World) (pk : PublicKey) :
  publicKey w = Some pk -> signTransaction w = true ->
  let w' := invoke (createToken env) w in
  let evs := appended w w' in
  trace w' = (trace w ++ evs)%list /\
  isLoading (hooks w') = false /\
  (solBalance (hooks w') = solBalance (hooks w) /\
   recipientAddress (hooks w') = recipientAddress (hooks w) /\
   transferAmount (hooks w') = transferAmount (hooks w) /\
   mintAmount (hooks w') = mintAmount (hooks w)) /\
  (List.length evs <= 11)%nat /\
  sends_follow_approval None evs /\
  stops_at_failure evs /\
  (forall e a', In e evs -> call e = GetAccount a' -> tokenAccount (hooks w) = Some a') /\
  ((exists sig ts ata,
      confirmed_signature sig evs /\
      (exists t sent, connection_sendRawTransaction env t sent = Ok sig /\
                      In (returned_ok (SendRawTransaction sent)) evs) /\
      toasts w' = (toasts w ++
        [{| level := success; content := [Text "Token created successfully!"] |}])%list /\
      transactionHistory (hooks w') =
        map (confirm_by sig)
            (transactionHistory (hooks w) ++
             [{| type := "Token Creation"; signature := sig; timestamp := ts;
                 amount := None; recipient := None; status := pending |}])%list /\
      (exists t, ts = Date_now env t /\ (clock w <= t <= clock w')%nat) /\
      tokenMint (hooks w') = Some (attempt_mint env w) /\
      tokenAccount (hooks w') = Some ata /\
      spl_getAssociatedTokenAddress env (attempt_mint env w) pk = Ok ata /\
      match tokenAccount (hooks w) with
      | None => tokenBalance (hooks w') = tokenBalance (hooks w)
      | Some old =>
          tokenBalance (hooks w') = zero \/
          exists t acc, spl_getAccount env t old = Ok acc /\
                        tokenBalance (hooks w') = div (of_Z (Account.amount acc)) billion
      end) \/
   (exists e new,
      toasts w' = (toasts w ++
        [{| level := error;
            content := [Text "Token creation failed: "; Text (message_or_Unknown e)] |}])%list /\
      transactionHistory (hooks w') =
        map (fail_by "Token Creation") (transactionHistory (hooks w) ++ new)%list /\
      (new = [] \/
       exists sig ts,
         new = [{| type := "Token Creation"; signature := sig; timestamp := ts;
                   amount := None; recipient := None; status := pending |}] /\
         (exists t sent, connection_sendRawTransaction env t sent = Ok sig /\
                      In (returned_ok (SendRawTransaction sent)) evs) /\
         exists t, ts = Date_now env t /\ (clock w <= t <= clock w')%nat) /\
      same_token w w' /\
      tokenBalance (hooks w') = tokenBalance (hooks w))).
Proof.
  intros Hpk Hs w' evs. subst evs w'. name_run.
  unfold invoke, createToken, attempt_mint, same_token, confirmed_signature.
  rewrite Hpk, Hs.
  unfold createToken_try, fetchTokenBalance. rewrite Hpk.
  destruct (tokenAccount (hooks w)) as [old|] eqn:Hold.
  all: exec.
  all: settle_run.
  all: cbn [hooks toasts trace clock isLoading transactionHistory solBalance tokenMint tokenAccount
            recipientAddress transferAmount mintAmount tokenBalance List.length].
  all: conj_step ltac:(rewrite ?app_nil_r; reflexivity).
  all: conj_step ltac:(reflexivity).
  all: conj_step ltac:(repeat split; reflexivity).
  all: conj_step ltac:(lia).
  all: conj_step ltac:(approve).
  all: conj_step ltac:(halting).
  all: conj_step ltac:(reads).
  all: first
         [ left; eexists _, _, _; split; [find_in|];
           split; [eexists _, _; split; [eassumption | find_in]|];
           split; [reflexivity|]; split; [reflexivity|];
           split; [eexists; split; [reflexivity | lia]|]; split; [reflexivity|];
           split; [reflexivity|]; split; [first [reflexivity | eassumption]|];
           first [ reflexivity | left; reflexivity
                 | right; eexists _, _; split; [eassumption | reflexivity] ]
         | right; eexists _, []; split; [reflexivity|];
           split; [rewrite app_nil_r; reflexivity|]; split; [left; reflexivity|];
           split; [split; first [reflexivity | assumption] | reflexivity]
         | right; eexists _, [_]; split; [reflexivity|]; split; [reflexivity|];
           split; [new_entry|];
           split; [split; first [reflexivity | assumption] | reflexivity] ].
Qed.

(** ** The guards of the handlers *)

Lemma createToken_cases (env : Env) (w : World) :
  invoke (createToken env) w = notified (error_toast "Wallet not connected") w \/
  exists pk, publicKey w = Some pk /\ signTransaction w = true.
Proof.
  unfold invoke, createToken.
  destruct (publicKey w) as [pk|]; [destruct (signTransaction w)|].
  - right. eauto.
  - left. reflexivity.
  - left. reflexivity.
Qed.

Lemma mintTokens_cases (env : Env) (w : World) :
  ((publicKey w = None \/ signTransaction w = false \/
    tokenMint (hooks w) = None \/ tokenAccount (hooks w) = None) /\
   invoke (mintTokens env) w = notified (error_toast "Missing required parameters") w) \/
  (exists t, InvalidAmount t /\ invoke (mintTokens env) w = notified t w) \/
  exists pk mint acct,
    publicKey w = Some pk /\ signTransaction w = true /\
    tokenMint (hooks w) = Some mint /\ tokenAccount (hooks w) = Some acct /\
    accepted (parseFloat (mintAmount (hooks w))).
Proof.
  unfold invoke, mintTokens, accepted, InvalidAmount.
  destruct (publicKey w) as [pk|]; [destruct (signTransaction w)|];
    [destruct (tokenMint (hooks w)) as [mint|];
     [destruct (tokenAccount (hooks w)) as [acct|]|]|..].
  1: destruct (isNaN (parseFloat (mintAmount (hooks w)))) eqn:Hn;
     [|destruct (leb (parseFloat (mintAmount (hooks w))) zero) eqn:Hz].
  all: first [ left; split; [|reflexivity]; solve [auto 10]
             | right; left; eexists; split; [|reflexivity]; solve [auto 10]
             | right; right; exists pk, mint, acct; auto 10 ].
Qed.

Lemma transferTokens_cases (env : Env) (w : World) :
  ((publicKey w = None \/ signTransaction w = false \/
    tokenMint (hooks w) = None \/ tokenAccount (hooks w) = None \/
    is_empty (recipientAddress (hooks w)) = true \/
    is_empty (transferAmount (hooks w)) = true) /\
   invoke (transferTokens env) w =
     notified (error_toast "Please connect wallet and fill all fields") w) \/
  (exists t, (InvalidAmount t \/ InsufficientBalance t) /\
             invoke (transferTokens env) w = notified t w) \/
  exists pk mint acct,
    publicKey w = Some pk /\ signTransaction w = true /\
    tokenMint (hooks w) = Some mint /\ tokenAccount (hooks w) = Some acct /\
    is_empty (recipientAddress (hooks w)) = false /\
    is_empty (transferAmount (hooks w)) = false /\
    accepted (parseFloat (transferAmount (hooks w))) /\
    gtb (parseFloat (transferAmount (hooks w))) (tokenBalance (hooks w)) = false.
Proof.
  unfold invoke, transferTokens, accepted, InvalidAmount, InsufficientBalance.
  destruct (publicKey w) as [pk|]; [destruct (signTransaction w)|];
    [destruct (tokenMint (hooks w)) as [mint|];
     [destruct (tokenAccount (hooks w)) as [acct|]|]|..].
  1: destruct (is_empty (recipientAddress (hooks w))) eqn:Hr;
     [|destruct (is_empty (transferAmount (hooks w))) eqn:Ht;
       [|destruct (isNaN (parseFloat (transferAmount (hooks w)))) eqn:Hn;
         [|destruct (leb (parseFloat (transferAmount (hooks w))) zero) eqn:Hz;
           [|destruct (gtb (parseFloat (transferAmount (hooks w)))
                           (tokenBalance (hooks w))) eqn:Hb]]]];
     cbn [orb].
  all: first [ left; split; [|reflexivity]; solve [auto 10]
             | right; left; eexists; split; [|reflexivity]; solve [eauto 10]
             | right; right; exists pk, mint, acct; auto 10 ].
Qed.

(** ** The refreshers *)

Lemma fetchSolBalance_effects (env : Env) (w : World) :
  let w' := invoke (fetchSolBalance env) w in
  match publicKey w with
  | None => w' = w
  | Some pk =>
      trace w' = (trace w ++ [{| call := GetBalance pk;
                                 returned := is_ok (connection_getBalance env (clock w) pk) |}])%list /\
      match connection_getBalance env (clock w) pk with
      | Ok lamports =>
          hooks w' = hooks (fst (setSolBalance (div lamports billion) w)) /\
          toasts w' = toasts w
      | Throw e =>
          hooks w' = hooks w /\
          toasts w' = (toasts w ++
            [{| level := error;
                content := [Text "Failed to fetch balance: ";
                            Text (message_or_String e)] |}])%list
      end
  end.
Proof.
  intros w'. subst w'. unfold invoke, fetchSolBalance.
  destruct (publicKey w) as [pk|]; [|reflexivity].
  unfold_js. destruct (connection_getBalance env (clock w) pk); unfold_js; auto.
Qed.

Lemma fetchTokenBalance_effects (env : Env) (w : World) :
  let w' := invoke (fetchTokenBalance env) w in
  match publicKey w, tokenAccount (hooks w) with
  | Some _, Some acct =>
      trace w' = (trace w ++ [{| call := GetAccount acct;
                                 returned := is_ok (spl_getAccount env (clock w) acct) |}])%list /\
      toasts w' = toasts w /\
      hooks w' =
        hooks (fst (setTokenBalance
                      match spl_getAccount env (clock w) acct with
                      | Ok acc => div (of_Z (Account.amount acc)) billion
                      | Throw _ => zero
                      end w))
  | _, _ => w' = w
  end.
Proof.
  intros w'. subst w'. unfold invoke, fetchTokenBalance.
  destruct (publicKey w) as [pk|]; [|reflexivity].
  destruct (tokenAccount (hooks w)) as [acct|]; [|reflexivity].
  unfold_js. destruct (spl_getAccount env (clock w) acct); unfold_js; auto.
Qed.

(** ** The marking functions *)

Lemma identity_confirm_by (sig : Signature) (tx : TransactionHistory) :
  identity (confirm_by sig tx) = identity tx.
Proof. unfold confirm_by. destruct (String.eqb (signature tx) sig); reflexivity. Qed.

Lemma identity_fail_by (T : string) (tx : TransactionHistory) :
  identity (fail_by T tx) = identity tx.
Proof. unfold fail_by. destruct (String.eqb (type tx) T); reflexivity. Qed.

Lemma map_identity_marked (f : TransactionHistory -> TransactionHistory)
      (l : list TransactionHistory) :
  (forall tx, identity (f tx) = identity tx) ->
  map identity (map f l) = map identity l.
Proof.
  intros H. rewrite map_map. apply map_ext. exact H.
Qed.

Lemma well_formed_identity (tx tx' : TransactionHistory) :
  identity tx' = identity tx -> well_formed tx -> well_formed tx'.
Proof.
  unfold identity, well_formed. intros H. injection H as -> _ _ -> ->. auto.
Qed.

Lemma confirm_by_new (sig : Signature) (l : list TransactionHistory)
      (tx : TransactionHistory) :
  signature tx = sig ->
  map (confirm_by sig) (l ++ [tx]) = (map (confirm_by sig) l ++ [with_status confirmed tx])%list.
Proof.
  intros H. rewrite map_app. cbn [map]. unfold confirm_by at 2.
  rewrite H, String.eqb_refl. reflexivity.
Qed.

(** ** What a change of the log preserves *)

Lemma log_change_identity (env : Env) (w w' : World) :
  log_change env w w' ->
  exists new, (List.length new <= 1)%nat /\
    Forall (entry env w w') new /\
    map identity (transactionHistory (hooks w')) =
      map identity (transactionHistory (hooks w) ++ new)%list.
Proof.
  intros [H | tx He _ H | T new Hlen Hnew H]; rewrite H.
  - exists []. rewrite app_nil_r. repeat split; auto.
  - exists [tx]. repeat split; auto.
    apply map_identity_marked, identity_confirm_by.
  - exists new. repeat split; auto.
    + eapply Forall_impl; [|exact Hnew]. intros tx [He _]. exact He.
    + apply map_identity_marked, identity_fail_by.
Qed.

Lemma log_change_settled (env : Env) (w w' : World) :
  log_change env w w' -> settled w -> settled w'.
Proof.
  unfold settled.
  intros [H | tx _ _ H | T new _ Hnew H] Hs; rewrite H; [exact Hs | |].
  - rewrite map_app. apply Forall_app. split.
    + apply Forall_map. eapply Forall_impl; [|exact Hs].
      intros old Ho. unfold confirm_by.
      destruct (String.eqb (signature old) (signature tx)); [discriminate | exact Ho].
    + constructor; [|constructor]. unfold confirm_by.
      rewrite String.eqb_refl. cbn. discriminate.
  - rewrite map_app. apply Forall_app. split.
    + apply Forall_map. eapply Forall_impl; [|exact Hs].
      intros old Ho. unfold fail_by.
      destruct (String.eqb (type old) T); [discriminate | exact Ho].
    + apply Forall_map. eapply Forall_impl; [|exact Hnew].
      intros tx [_ <-]. unfold fail_by. rewrite String.eqb_refl. cbn. discriminate.
Qed.

Lemma Forall_identity (P : TransactionHistory -> Prop) :
  (forall tx tx', identity tx' = identity tx -> P tx -> P tx') ->
  forall l' l, map identity l' = map identity l -> Forall P l -> Forall P l'.
Proof.
  intros HP. induction l' as [|tx' l' IH]; intros [|tx l] Hid Hall;
    try discriminate Hid; constructor;
    cbn [map] in Hid; inversion Hall; subst.
  - apply (HP tx); [congruence | assumption].
  - apply (IH l); [congruence | assumption].
Qed.

Lemma log_change_well_formed (env : Env) (w w' : World) :
  log_change env w w' ->
  Forall well_formed (transactionHistory (hooks w)) ->
  Forall well_formed (transactionHistory (hooks w')).
Proof.
  intros H Hw. destruct (log_change_identity H) as (new & _ & Hnew & Hid).
  eapply (Forall_identity well_formed_identity); [exact Hid|].
  apply Forall_app; split; [assumption|].
  eapply Forall_impl; [|exact Hnew]. intros tx (_ & _ & Hwf & _). exact Hwf.
Qed.

Lemma confirmed_signature_app (sig : Signature) (l1 l2 : list Event) :
  confirmed_signature sig l1 \/ confirmed_signature sig l2 ->
  confirmed_signature sig (l1 ++ l2).
Proof. unfold confirmed_signature. intros H. apply in_or_app. exact H. Qed.

Lemma issued_app (env : Env) (tx : TransactionHistory) (l1 l2 : list Event) :
  issued env l1 tx \/ issued env l2 tx -> issued env (l1 ++ l2) tx.
Proof.
  unfold issued. intros [(t & sent & H & Hin) | (t & sent & H & Hin)];
    exists t, sent; (split; [exact H|]); apply in_or_app; auto.
Qed.

Lemma log_change_vouched (env : Env) (w w' : World) :
  trace w' = (trace w ++ appended w w')%list ->
  log_change env w w' -> vouched env w -> vouched env w'.
Proof.
  unfold vouched. intros Ht H Hv. rewrite Ht.
  assert (Hold : Forall (fun tx => issued env (trace w ++ appended w w') tx /\
                   (status tx = confirmed ->
                    confirmed_signature (signature tx) (trace w ++ appended w w')))
                 (transactionHistory (hooks w))).
  { eapply Forall_impl; [|exact Hv]. intros tx [Hi Hc]. split.
    - apply issued_app. left. exact Hi.
    - intros Hst. apply confirmed_signature_app. left. auto. }
  destruct H as [H | tx (_ & Hi & _) Hc H | T new _ Hnew H]; rewrite H; [exact Hold | |].
  - rewrite map_app. apply Forall_app. split.
    + apply Forall_map. eapply Forall_impl; [|exact Hold].
      intros old [Hio Hco]. unfold confirm_by.
      destruct (String.eqb (signature old) (signature tx)) eqn:E; [|auto].
      apply String.eqb_eq in E. split; [exact Hio|]. intros _. cbn [signature with_status].
      rewrite E. apply confirmed_signature_app. right. exact Hc.
    + constructor; [|constructor]. unfold confirm_by. rewrite String.eqb_refl.
      split; [apply issued_app; right; exact Hi|].
      intros _. apply confirmed_signature_app. right. exact Hc.
  - rewrite map_app. apply Forall_app. split.
    + apply Forall_map. eapply Forall_impl; [|exact Hold].
      intros old [Hio Hco]. unfold fail_by.
      destruct (String.eqb (type old) T); [|auto].
      split; [exact Hio | discriminate].
    + apply Forall_map. eapply Forall_impl; [|exact Hnew].
      intros tx [(_ & Hi & _) <-]. unfold fail_by. rewrite String.eqb_refl.
      split; [apply issued_app; right; exact Hi | cbn; discriminate].
Qed.

(** ** Traces *)

Lemma sends_follow_approval_fresh (prev : option Event) (evs : list Event) :
  sends_follow_approval None evs -> sends_follow_approval prev evs.
Proof.
  destruct evs as [|e rest]; [auto|]. cbn [sends_follow_approval].
  intros [H Hr]. split; [|exact Hr].
  destruct (call e); auto. destruct H as (t0 & H & _). discriminate H.
Qed.

Lemma sends_follow_approval_app (prev : option Event) (l1 l2 : list Event) :
  sends_follow_approval prev l1 -> sends_follow_approval None l2 ->
  sends_follow_approval prev (l1 ++ l2).
Proof.
  revert prev. induction l1 as [|e l1 IH]; intros prev H1 H2.
  - apply sends_follow_approval_fresh. exact H2.
  - cbn [app sends_follow_approval] in *. destruct H1 as [H H1]. split; auto.
Qed.

(** ** Every step is orderly *)

Lemma quiet_orderly (env : Env) (w w' : World) :
  transactionHistory (hooks w') = transactionHistory (hooks w) ->
  isLoading (hooks w') = isLoading (hooks w) ->
  tokenBalance (hooks w') = tokenBalance (hooks w) ->
  solBalance (hooks w') = solBalance (hooks w) ->
  trace w' = trace w ->
  (toasts w' = toasts w \/ exists t, toasts w' = (toasts w ++ [t])%list) ->
  orderly env w w'.
Proof.
  intros Hh Hl Hb Hsol Ht Hto. unfold orderly.
  rewrite (@appended_nil _ _ Ht), Hl, Ht, app_nil_r. cbn.
  repeat split; auto. apply log_kept. exact Hh.
Qed.

Lemma notified_orderly (env : Env) (t : Toast) (w : World) :
  orderly env w (notified t w).
Proof. apply quiet_orderly; try reflexivity. right. exists t. reflexivity. Qed.

Lemma createToken_orderly (env : Env) (w : World) :
  orderly env w (invoke (createToken env) w).
Proof.
  destruct (createToken_cases env w) as [-> | (pk & Hpk & Hs)];
    [apply notified_orderly|].
  destruct (createToken_effects env w Hpk Hs)
    as (Ht & Hl & (Hsol & _) & _ & Hsfa & Hstop & _ & D).
  unfold orderly. repeat (split; [solve [auto]|]).
  destruct D as [(sig & ts & ata & Hc & Hi & Hto & Hh & Htime & _ & _ & _ & Hb)
                | (e & new & Hto & Hh & Hnew & _ & Hb)].
  - split; [|split; [|split]].
    + eapply log_confirmed with (tx := {| type := "Token Creation"; signature := sig |});
        [|exact Hc|exact Hh].
      split; [reflexivity|]. split; [exact Hi|]. split; [left; auto | exact Htime].
    + destruct (tokenAccount (hooks w)); [right|left; exact Hb].
      destruct Hb as [Hb | (t & acc & Hr & Hb)]; [left; exact Hb|].
      right. eauto.
    + left. exact Hsol.
    + right. eauto.
  - split; [|split; [|split]].
    + apply log_failed with (T := "Token Creation") (new := new); [| |exact Hh].
      * destruct Hnew as [-> | (sig & ts & -> & _)]; cbn; lia.
      * destruct Hnew as [-> | (sig & ts & -> & Hi & Htime)]; constructor; [|constructor].
        split; [|reflexivity]. split; [reflexivity|]. split; [exact Hi|].
        split; [left; auto | exact Htime].
    + left. exact Hb.
    + left. exact Hsol.
    + right. eauto.
Qed.

Lemma mintTokens_orderly (env : Env) (w : World) :
  orderly env w (invoke (mintTokens env) w).
Proof.
  destruct (mintTokens_cases env w)
    as [(_ & ->) | [(t & _ & ->) | (pk & mint & acct & Hpk & Hs & Hm & Ha & Hn & Hz)]];
    [apply notified_orderly..|].
  destruct (mintTokens_effects env w Hpk Hs Hm Ha Hn Hz)
    as (Ht & Hl & (Hsol & _) & _ & Hsfa & Hstop & _ & D).
  unfold orderly. repeat (split; [solve [auto]|]).
  destruct D as [(sig & ts & Hc & Hi & Hto & Hh & Htime & _ & Hb)
                | (e & new & _ & Hto & Hh & Hnew & _ & Hb)].
  - split; [|split; [|split]].
    + eapply log_confirmed with (tx := {| type := "Token Mint"; signature := sig |});
        [|exact Hc|exact Hh].
      split; [reflexivity|]. split; [exact Hi|]. split; [|exact Htime]. right. left.
      split; [reflexivity|]. split; [|reflexivity]. eexists. split; [reflexivity|]. split; assumption.
    + right. destruct Hb as [Hb | (t & acc & Hr & Hb)]; [left; exact Hb|].
      right. eauto.
    + left. exact Hsol.
    + right. eauto.
  - split; [|split; [|split]].
    + apply log_failed with (T := "Token Mint") (new := new); [| |exact Hh].
      * destruct Hnew as [-> | (sig & ts & -> & _)]; cbn; lia.
      * destruct Hnew as [-> | (sig & ts & -> & Hi & Htime)]; constructor; [|constructor].
        split; [|reflexivity]. split; [reflexivity|]. split; [exact Hi|].
        split; [|exact Htime]. right. left.
        split; [reflexivity|]. split; [|reflexivity].
        eexists. split; [reflexivity|]. split; assumption.
    + left. exact Hb.
    + left. exact Hsol.
    + right. eauto.
Qed.

Lemma transferTokens_orderly (env : Env) (w : World) :
  orderly env w (invoke (transferTokens env) w).
Proof.
  destruct (transferTokens_cases env w)
    as [(_ & ->) | [(t & _ & ->)
       | (pk & mint & acct & Hpk & Hs & Hm & Ha & Hr & Hta & (Hn & Hz) & Hg)]];
    [apply notified_orderly..|].
  destruct (transferTokens_effects env w Hpk Hs Hm Ha Hr Hta Hn Hz Hg)
    as (Ht & Hl & (Hsol & _) & _ & Hsfa & Hstop & D).
  unfold orderly. repeat (split; [solve [auto]|]).
  destruct D as [(sig & ts & Hc & Hi & Hto & Hh & Htime & _ & Hb)
                | (e & new & _ & Hto & Hh & Hnew & _ & Hb)].
  - split; [|split; [|split]].
    + eapply log_confirmed with (tx := {| type := "Token Transfer"; signature := sig |});
        [|exact Hc|exact Hh].
      split; [reflexivity|]. split; [exact Hi|]. split; [|exact Htime]. right. right.
      split; [reflexivity|]. split.
      * eexists. split; [reflexivity|]. split; assumption.
      * eexists. split; [reflexivity|]. assumption.
    + right. destruct Hb as [Hb | (t & acc & Hrd & Hb)]; [left; exact Hb|].
      right. eauto.
    + left. exact Hsol.
    + right. eauto.
  - split; [|split; [|split]].
    + apply log_failed with (T := "Token Transfer") (new := new); [| |exact Hh].
      * destruct Hnew as [-> | (sig & ts & -> & _)]; cbn; lia.
      * destruct Hnew as [-> | (sig & ts & -> & Hi & Htime)]; constructor; [|constructor].
        split; [|reflexivity]. split; [reflexivity|]. split; [exact Hi|].
        split; [|exact Htime]. right. right.
        split; [reflexivity|]. split.
        -- eexists. split; [reflexivity|]. split; assumption.
        -- eexists. split; [reflexivity|]. assumption.
    + left. exact Hb.
    + left. exact Hsol.
    + right. eauto.
Qed.

Lemma fetchSolBalance_orderly (env : Env) (w : World) :
  orderly env w (invoke (fetchSolBalance env) w).
Proof.
  pose proof (fetchSolBalance_effects env w) as H. cbv zeta in H.
  destruct (publicKey w) as [pk|]; [|rewrite H; apply quiet_orderly; auto].
  destruct H as [Ht H]. unfold orderly.
  rewrite (@appended_app _ _ _ Ht). split; [exact Ht|].
  split; [cbn; auto|]. split; [cbn; auto|].
  destruct (connection_getBalance env (clock w) pk) as [lamports|e] eqn:E;
    destruct H as [Hh Hto]; rewrite Hh; cbn.
  - repeat split; auto; [apply log_kept; rewrite Hh; reflexivity|].
    right. right. eauto.
  - repeat split; auto; [apply log_kept; rewrite Hh; reflexivity|].
    right. eauto.
Qed.

Lemma fetchTokenBalance_orderly (env : Env) (w : World) :
  orderly env w (invoke (fetchTokenBalance env) w).
Proof.
  pose proof (fetchTokenBalance_effects env w) as H. cbv zeta in H.
  destruct (publicKey w) as [pk|]; [|rewrite H; apply quiet_orderly; auto].
  destruct (tokenAccount (hooks w)) as [acct|] eqn:Ha;
    [|rewrite H; apply quiet_orderly; auto].
  destruct H as (Ht & Hto & Hh). unfold orderly.
  rewrite (@appended_app _ _ _ Ht). split; [exact Ht|].
  split; [cbn; auto|]. split; [cbn; auto|].
  rewrite Hh; cbn.
  repeat split; auto; [apply log_kept; rewrite Hh; reflexivity|].
  right. destruct (spl_getAccount env (clock w) acct) as [acc|e] eqn:E.
  - right. eauto.
  - left. reflexivity.
Qed.

Lemma step_orderly (env : Env) (w w' : World) : step env w w' -> orderly env w w'.
Proof.
  intros H. destruct H as [w|w|w|w|w|v w|v w|v w|k s w].
  - apply createToken_orderly.
  - apply mintTokens_orderly.
  - apply transferTokens_orderly.
  - apply fetchSolBalance_orderly.
  - apply fetchTokenBalance_orderly.
  - apply quiet_orderly; auto.
  - apply quiet_orderly; auto.
  - apply quiet_orderly; auto.
  - apply quiet_orderly; auto.
Qed.

(** ** Handlers that return *)

Lemma completes_ret (A : Type) (a : A) : completes (ret a).
Proof. intros w. reflexivity. Qed.

Lemma completes_set_hooks (f : Hooks -> Hooks) : completes (set_hooks f).
Proof. intros w. reflexivity. Qed.

Lemma completes_toast (l : Level) (msg : list Fragment) : completes (toast l msg).
Proof. intros w. reflexivity. Qed.

Lemma completes_bind (A B : Type) (m : M A) (k : A -> M B) :
  completes m -> (forall a, completes (k a)) -> completes (bind m k).
Proof.
  intros Hm Hk w. unfold bind. specialize (Hm w).
  destruct (m w) as [w1 [a|e]]; [apply Hk | discriminate Hm].
Qed.

Lemma completes_try_catch (A : Type) (body : M A) (handler : Thrown -> M A) :
  (forall e, completes (handler e)) -> completes (try_catch body handler).
Proof.
  intros Hh w. unfold try_catch.
  destruct (body w) as [w1 [a|e]]; [reflexivity | apply Hh].
Qed.

Lemma completes_try_catch_finally (body : M unit) (handler : Thrown -> M unit)
      (fin : M unit) :
  (forall e, completes (handler e)) -> completes fin ->
  completes (try_catch_finally body handler fin).
Proof.
  intros Hh Hf w. unfold try_catch_finally.
  destruct (body w) as [w1 [a|e]].
  - specialize (Hf w1). destruct (fin w1) as [w3 [u|e]]; [reflexivity | discriminate Hf].
  - specialize (Hh e w1). destruct (handler e w1) as [w2 [u|e2]]; [|discriminate Hh].
    specialize (Hf w2). destruct (fin w2) as [w3 [u'|e3]]; [reflexivity | discriminate Hf].
Qed.

(** Walks down a handler, to the handlers of its [try] statements. *)
Ltac completes_by :=
  repeat first
    [ apply completes_ret
    | apply completes_set_hooks
    | apply completes_toast
    | apply completes_try_catch; intros ?
    | apply completes_try_catch_finally; [intros ? |]
    | apply completes_bind; [| intros ?]
    | match goal with
      | |- completes (match ?x with _ => _ end) => destruct x
      | |- completes (if ?b then _ else _) => destruct b
      end ].

(** X1. No handler throws: whatever a collaborator answers or throws, each
    of [createToken], [mintTokens], [transferTokens], [fetchSolBalance] and
    [fetchTokenBalance] returns normally, from every state and for every
    render it was created in. *)
Theorem handlers_never_throw (env : Env) (r : World) :
  completes (createToken env r) /\
  completes (mintTokens env r) /\
  completes (transferTokens env r) /\
  completes (fetchSolBalance env r) /\
  completes (fetchTokenBalance env r).
Proof.
  split; [|split; [|split; [|split]]];
    unfold createToken, mintTokens, mintTokens_submit, transferTokens,
      transferTokens_submit, fetchSolBalance, fetchTokenBalance,
      toast_error, toast_success, setIsLoading, setTransactionHistory,
      setTokenBalance;
    cbv zeta; completes_by.
Qed.

(** ** One toast, a bounded number of calls *)

Lemma notified_announces (op : World -> M unit) (w : World) (t : Toast) :
  level t = error -> invoke op w = notified t w -> announces op w.
Proof.
  intros Hl H. unfold announces. rewrite H. exists t. split; [reflexivity|].
  rewrite Hl. discriminate.
Qed.

Lemma rejection_level (t : Toast) :
  InvalidAmount t \/ InsufficientBalance t -> level t = error.
Proof.
  unfold InvalidAmount, InsufficientBalance.
  intros [[-> | [-> | ->]] | [b ->]]; reflexivity.
Qed.

(** X2. Each run of [createToken], [mintTokens] and [transferTokens] shows
    exactly one toast, whatever the state and the answers of the
    collaborators; the toast is a success toast only if the cluster
    confirmed a transaction of that run. *)
Theorem one_toast_per_operation (env : Env) (w : World) :
  announces (createToken env) w /\
  announces (mintTokens env) w /\
  announces (transferTokens env) w.
Proof.
  split; [|split].
  - destruct (createToken_cases env w) as [H | (pk & Hpk & Hs)];
      [eapply notified_announces; [|exact H]; reflexivity|].
    destruct (createToken_effects env w Hpk Hs) as (_ & _ & _ & _ & _ & _ & _ & D).
    destruct D as [(sig & ts & ata & Hc & _ & Hto & _) | (e & new & Hto & _)];
      eexists; (split; [exact Hto|]); cbn; [eauto | discriminate].
  - destruct (mintTokens_cases env w)
      as [(_ & H) | [(t & Hk & H) | (pk & mint & acct & Hpk & Hs & Hm & Ha & Hn & Hz)]];
      [eapply notified_announces; [|exact H]; reflexivity
      |eapply notified_announces; [|exact H]; apply rejection_level; tauto|].
    destruct (mintTokens_effects env w Hpk Hs Hm Ha Hn Hz)
      as (_ & _ & _ & _ & _ & _ & _ & D).
    destruct D as [(sig & ts & Hc & _ & Hto & _) | (e & new & _ & Hto & _)];
      eexists; (split; [exact Hto|]); cbn; [eauto | discriminate].
  - destruct (transferTokens_cases env w)
      as [(_ & H) | [(t & Hk & H)
         | (pk & mint & acct & Hpk & Hs & Hm & Ha & Hr & Hta & (Hn & Hz) & Hg)]];
      [eapply notified_announces; [|exact H]; reflexivity
      |eapply notified_announces; [|exact H]; apply rejection_level; tauto|].
    destruct (transferTokens_effects env w Hpk Hs Hm Ha Hr Hta Hn Hz Hg)
      as (_ & _ & _ & _ & _ & _ & D).
    destruct D as [(sig & ts & Hc & _ & Hto & _) | (e & new & _ & Hto & _)];
      eexists; (split; [exact Hto|]); cbn; [eauto | discriminate].
Qed.

Lemma notified_halts (n : nat) (op : World -> M unit) (w : World) (t : Toast) :
  invoke op w = notified t w -> halts_within n op w.
Proof.
  intros H. unfold halts_within. rewrite H, appended_notified. cbn. split; [lia | exact I].
Qed.

(** X3. No call is retried and no call follows a failed one: a run of
    [createToken] makes at most eleven collaborator calls, a run of
    [mintTokens] at most five, a run of [transferTokens] at most six, and in
    each the first call that fails is the last call made, except that a
    failed read of a token account is tolerated. *)
Theorem operations_stop_at_failure (env : Env) (w : World) :
  halts_within 11 (createToken env) w /\
  halts_within 5 (mintTokens env) w /\
  halts_within 6 (transferTokens env) w.
Proof.
  split; [|split].
  - destruct (createToken_cases env w) as [H | (pk & Hpk & Hs)];
      [eapply notified_halts; exact H|].
    destruct (createToken_effects env w Hpk Hs) as (_ & _ & _ & Hlen & _ & Hstop & _).
    split; assumption.
  - destruct (mintTokens_cases env w)
      as [(_ & H) | [(t & Hk & H) | (pk & mint & acct & Hpk & Hs & Hm & Ha & Hn & Hz)]];
      [eapply notified_halts; exact H..|].
    destruct (mintTokens_effects env w Hpk Hs Hm Ha Hn Hz)
      as (_ & _ & _ & Hlen & _ & Hstop & _).
    split; assumption.
  - destruct (transferTokens_cases env w)
      as [(_ & H) | [(t & Hk & H)
         | (pk & mint & acct & Hpk & Hs & Hm & Ha & Hr & Hta & (Hn & Hz) & Hg)]];
      [eapply notified_halts; exact H..|].
    destruct (transferTokens_effects env w Hpk Hs Hm Ha Hr Hta Hn Hz Hg)
      as (_ & _ & _ & Hlen & _ & Hstop & _).
    split; assumption.
Qed.

(** ** The guards on the token context and on the mint amount *)

(** X4. With a wallet session but no token yet (no mint, or no associated
    account), [mintTokens] and [transferTokens] show the error of their
    first guard and do nothing else: no collaborator call, no change of the
    state or of the log. *)
Theorem missing_token_fails_fast (env : Env) (w : World) (pk : PublicKey) :
  publicKey w = Some pk -> signTransaction w = true ->
  tokenMint (hooks w) = None \/ tokenAccount (hooks w) = None ->
  fails_fast (fun t => t = error_toast "Missing required parameters")
             w (invoke (mintTokens env) w) /\
  fails_fast (fun t => t = error_toast "Please connect wallet and fill all fields")
             w (invoke (transferTokens env) w).
Proof.
  intros Hpk Hs Hno.
  split; apply fails_with_fast; eexists; (split; [reflexivity|]);
    unfold invoke, mintTokens, transferTokens; rewrite Hpk, Hs;
    destruct Hno as [-> | Hno]; try reflexivity;
    rewrite Hno; destruct (tokenMint (hooks w)); reflexivity.
Qed.

Lemma missing_token_fails_fast_witness :
  fails_fast (fun t => t = error_toast "Missing required parameters")
             Sample.connected (invoke (mintTokens Sample.devnet) Sample.connected) /\
  fails_fast (fun t => t = error_toast "Please connect wallet and fill all fields")
             Sample.connected (invoke (transferTokens Sample.devnet) Sample.connected).
Proof.
  apply (@missing_token_fails_fast Sample.devnet Sample.connected Sample.wallet).
  - reflexivity.
  - reflexivity.
  - left. reflexivity.
Defined.

(** X5. With a wallet session and a token, [mintTokens] rejects an amount
    field that does not parse to a number, or parses to a number that is not
    greater than zero: it shows "Please enter a valid amount greater than 0"
    and does nothing else, before any collaborator call. *)
Theorem mint_amount_validation (env : Env) (w : World) (pk mint acct : PublicKey) :
  publicKey w = Some pk -> signTransaction w = true ->
  tokenMint (hooks w) = Some mint -> tokenAccount (hooks w) = Some acct ->
  let a := parseFloat (mintAmount (hooks w)) in
  isNaN a = true \/ leb a zero = true ->
  fails_fast (fun t => t = error_toast "Please enter a valid amount greater than 0")
             w (invoke (mintTokens env) w).
Proof.
  intros Hpk Hs Hm Ha a Hbad.
  apply fails_with_fast. eexists. split; [reflexivity|].
  unfold invoke, mintTokens. rewrite Hpk, Hs, Hm, Ha. fold a.
  destruct Hbad as [-> | H]; [reflexivity|].
  rewrite H, orb_true_r. reflexivity.
Qed.

Lemma mint_amount_validation_witness :
  let w := fst (setMintAmount "-2.5" Sample.with_token) in
  fails_fast (fun t => t = error_toast "Please enter a valid amount greater than 0")
             w (invoke (mintTokens Sample.devnet) w).
Proof.
  intros w.
  apply (@mint_amount_validation Sample.devnet w Sample.wallet "Mint"
           ("Ata/Mint/" ++ Sample.wallet));
    try (vm_compute; reflexivity).
  right. vm_compute. reflexivity.
Defined.

(** ** The outcome of an operation *)

(** X6. A [mintTokens] that passes its guards ends in one of two ways, and
    in both with the loading flag lowered and the SOL balance, the token
    context and the transfer form as they were.  Either the cluster
    confirmed the transaction: then the success toast names the amount, the
    records with that signature are marked confirmed and the new record, of
    type "Token Mint" with the amount, is appended confirmed, the amount
    field is cleared and the token balance is 0 or the amount read from the
    token account.  Or no transaction was confirmed: then the error toast
    carries the message of what was thrown, every record of type
    "Token Mint", with the record of this run if the transaction was sent,
    is marked failed, and the amount field and the token balance are kept. *)
Theorem mint_outcome (env : Env) (w : World) (pk mint acct : PublicKey) :
  publicKey w = Some pk -> signTransaction w = true ->
  tokenMint (hooks w) = Some mint -> tokenAccount (hooks w) = Some acct ->
  let a := parseFloat (mintAmount (hooks w)) in
  isNaN a = false -> leb a zero = false ->
  let w' := invoke (mintTokens env) w in
  let evs := appended w w' in
  (isLoading (hooks w') = false /\
   solBalance (hooks w') = solBalance (hooks w) /\
   same_token w w' /\
   recipientAddress (hooks w') = recipientAddress (hooks w) /\
   transferAmount (hooks w') = transferAmount (hooks w)) /\
  ((exists sig ts,
      confirmed_signature sig evs /\
      toasts w' = (toasts w ++
        [{| level := success;
            content := [Text "Successfully minted "; Num a; Text " tokens!"] |}])%list /\
      transactionHistory (hooks w') =
        (map (confirm_by sig) (transactionHistory (hooks w)) ++
         [{| type := "Token Mint"; signature := sig; timestamp := ts;
             amount := Some a; recipient := None; status := confirmed |}])%list /\
      mintAmount (hooks w') = "" /\
      (tokenBalance (hooks w') = zero \/
       exists t acc, spl_getAccount env t acct = Ok acc /\
                     tokenBalance (hooks w') = div (of_Z (Account.amount acc)) billion)) \/
   (exists e new,
      (forall sig, ~ confirmed_signature sig evs) /\
      toasts w' = (toasts w ++
        [{| level := error;
            content := [Text "Failed to mint tokens: "; Text (message_or_String e)] |}])%list /\
      transactionHistory (hooks w') =
        map (fail_by "Token Mint") (transactionHistory (hooks w) ++ new)%list /\
      (new = [] \/
       exists sig ts,
         new = [{| type := "Token Mint"; signature := sig; timestamp := ts;
                   amount := Some a; recipient := None; status := pending |}]) /\
      mintAmount (hooks w') = mintAmount (hooks w) /\
      tokenBalance (hooks w') = tokenBalance (hooks w))).
Proof.
  intros Hpk Hs Hm Ha a Hn Hz w' evs.
  destruct (mintTokens_effects env w Hpk Hs Hm Ha Hn Hz)
    as (_ & Hl & (Hsol & Htok & Hr & Ht) & _ & _ & _ & _ & D).
  split; [auto|].
  destruct D as [(sig & ts & Hc & _ & Hto & Hh & _ & Hf & Hb)
                | (e & new & Hno & Hto & Hh & Hnew & Hf & Hb)].
  - left. exists sig, ts. rewrite confirm_by_new in Hh by reflexivity. auto.
  - right. exists e, new. repeat (split; [assumption|]). split; [|auto].
    destruct Hnew as [-> | (sig & ts & -> & _)]; eauto.
Qed.

Lemma mint_outcome_witness :
  let w := fst (setMintAmount "5" Sample.with_token) in
  isLoading (hooks (invoke (mintTokens Sample.devnet) w)) = false.
Proof.
  intros w.
  refine (proj1 (proj1 (@mint_outcome Sample.devnet w Sample.wallet "Mint"
            ("Ata/Mint/" ++ Sample.wallet) _ _ _ _ _ _)));
    vm_compute; reflexivity.
Defined.

(** X7. A [transferTokens] that passes its guards ends in one of two ways,
    and in both with the loading flag lowered and the SOL balance, the token
    context, the recipient field and the mint amount field as they were.
    Either the cluster confirmed the transaction: then the success toast
    names the amount, the records with that signature are marked confirmed
    and the new record, of type "Token Transfer" with the amount and the
    recipient as typed, is appended confirmed, the amount field is cleared
    and the token balance is 0 or the amount read from the sender's token
    account.  Or no transaction was confirmed: then the error toast carries
    the message of what was thrown, every record of type "Token Transfer",
    with the record of this run if the transaction was sent, is marked
    failed, and the amount field and the token balance are kept. *)
Theorem transfer_outcome (env : Env) (w : World) (pk mint acct : PublicKey) :
  publicKey w = Some pk -> signTransaction w = true ->
  tokenMint (hooks w) = Some mint -> tokenAccount (hooks w) = Some acct ->
  is_empty (recipientAddress (hooks w)) = false ->
  is_empty (transferAmount (hooks w)) = false ->
  let a := parseFloat (transferAmount (hooks w)) in
  isNaN a = false -> leb a zero = false ->
  gtb a (tokenBalance (hooks w)) = false ->
  let w' := invoke (transferTokens env) w in
  let evs := appended w w' in
  (isLoading (hooks w') = false /\
   solBalance (hooks w') = solBalance (hooks w) /\
   same_token w w' /\
   recipientAddress (hooks w') = recipientAddress (hooks w) /\
   mintAmount (hooks w') = mintAmount (hooks w)) /\
  ((exists sig ts,
      confirmed_signature sig evs /\
      toasts w' = (toasts w ++
        [{| level := success;
            content := [Text "Transferred "; Num a; Text " tokens successfully!"] |}])%list /\
      transactionHistory (hooks w') =
        (map (confirm_by sig) (transactionHistory (hooks w)) ++
         [{| type := "Token Transfer"; signature := sig; timestamp := ts;
             amount := Some a; recipient := Some (recipientAddress (hooks w));
             status := confirmed |}])%list /\
      transferAmount (hooks w') = "" /\
      (tokenBalance (hooks w') = zero \/
       exists t acc, spl_getAccount env t acct = Ok acc /\
                     tokenBalance (hooks w') = div (of_Z (Account.amount acc)) billion)) \/
   (exists e new,
      (forall sig, ~ confirmed_signature sig evs) /\
      toasts w' = (toasts w ++
        [{| level := error;
            content := [Text "Transfer failed: "; Text (message_or_String e)] |}])%list /\
      transactionHistory (hooks w') =
        map (fail_by "Token Transfer") (transactionHistory (hooks w) ++ new)%list /\
      (new = [] \/
       exists sig ts,
         new = [{| type := "Token Transfer"; signature := sig; timestamp := ts;
                   amount := Some a; recipient := Some (recipientAddress (hooks w));
                   status := pending |}]) /\
      transferAmount (hooks w') = transferAmount (hooks w) /\
      tokenBalance (hooks w') = tokenBalance (hooks w))).
Proof.
  intros Hpk Hs Hm Ha Hr Hta a Hn Hz Hg w' evs.
  destruct (transferTokens_effects env w Hpk Hs Hm Ha Hr Hta Hn Hz Hg)
    as (_ & Hl & (Hsol & Htok & Hrec & Hmint) & _ & _ & _ & D).
  split; [auto|].
  destruct D as [(sig & ts & Hc & _ & Hto & Hh & _ & Hf & Hb)
                | (e & new & Hno & Hto & Hh & Hnew & Hf & Hb)].
  - left. exists sig, ts. rewrite confirm_by_new in Hh by reflexivity. auto.
  - right. exists e, new. repeat (split; [assumption|]). split; [|auto].
    destruct Hnew as [-> | (sig & ts & -> & _)]; eauto.
Qed.

Lemma transfer_outcome_witness :
  let w := Sample.typing Sample.friend "5" Sample.with_token in
  isLoading (hooks (invoke (transferTokens Sample.devnet) w)) = false.
Proof.
  intros w.
  refine (proj1 (proj1 (@transfer_outcome Sample.devnet w Sample.wallet "Mint"
            ("Ata/Mint/" ++ Sample.wallet) _ _ _ _ _ _ _ _ _)));
    vm_compute; reflexivity.
Defined.

(** X8. A [createToken] started with a wallet session ends in one of two
    ways, and in both with the loading flag lowered and the SOL balance and
    the three form fields as they were.  Either every step went through:
    then the toast is "Token created successfully!", the records with the
    signature of the mint transaction are marked confirmed and the new
    record, of type "Token Creation", is appended confirmed, the mint is the
    key generated by this run and the token account the address derived for
    it and the wallet.  Or something was thrown: then the error toast
    carries its message ("Unknown error" for a thrown value that is not an
    error object), every record of type "Token Creation", with the record of
    this run if the mint transaction was sent, is marked failed, and the
    token context and the token balance are kept. *)
Theorem creation_outcome (env : Env) (w : World) (pk : PublicKey) :
  publicKey w = Some pk -> signTransaction w = true ->
  let w' := invoke (createToken env) w in
  let evs := appended w w' in
  (isLoading (hooks w') = false /\
   solBalance (hooks w') = solBalance (hooks w) /\
   recipientAddress (hooks w') = recipientAddress (hooks w) /\
   transferAmount (hooks w') = transferAmount (hooks w) /\
   mintAmount (hooks w') = mintAmount (hooks w)) /\
  ((exists sig ts ata,
      confirmed_signature sig evs /\
      toasts w' = (toasts w ++
        [{| level := success; content := [Text "Token created successfully!"] |}])%list /\
      transactionHistory (hooks w') =
        (map (confirm_by sig) (transactionHistory (hooks w)) ++
         [{| type := "Token Creation"; signature := sig; timestamp := ts;
             amount := None; recipient := None; status := confirmed |}])%list /\
      tokenMint (hooks w') = Some (attempt_mint env w) /\
      tokenAccount (hooks w') = Some ata /\
      spl_getAssociatedTokenAddress env (attempt_mint env w) pk = Ok ata) \/
   (exists e new,
      toasts w' = (toasts w ++
        [{| level := error;
            content := [Text "Token creation failed: "; Text (message_or_Unknown e)] |}])%list /\
      transactionHistory (hooks w') =
        map (fail_by "Token Creation") (transactionHistory (hooks w) ++ new)%list /\
      (new = [] \/
       exists sig ts,
         new = [{| type := "Token Creation"; signature := sig; timestamp := ts;
                   amount := None; recipient := None; status := pending |}]) /\
      same_token w w' /\
      tokenBalance (hooks w') = tokenBalance (hooks w))).
Proof.
  intros Hpk Hs w' evs.
  destruct (createToken_effects env w Hpk Hs)
    as (_ & Hl & (Hsol & Hr & Ht & Hmi) & _ & _ & _ & _ & D).
  split; [auto|].
  destruct D as [(sig & ts & ata & Hc & _ & Hto & Hh & _ & Hm & Ha & Hd & _)
                | (e & new & Hto & Hh & Hnew & Htok & Hb)].
  - left. exists sig, ts, ata. rewrite confirm_by_new in Hh by reflexivity. auto 10.
  - right. exists e, new. repeat (split; [assumption|]). split; [|auto].
    destruct Hnew as [-> | (sig & ts & -> & _)]; eauto.
Qed.

Lemma creation_outcome_witness :
  isLoading (hooks (invoke (createToken Sample.devnet) Sample.connected)) = false.
Proof.
  refine (proj1 (proj1 (@creation_outcome Sample.devnet Sample.connected Sample.wallet _ _)));
    reflexivity.
Defined.

(** X9. The balance refresh at the end of [createToken] is the one of the
    render the handler was created in: every token account the run reads
    is the token account the state had when the run started, not the one
    the run sets; started without a token account, the run reads none and
    leaves the token balance as it was, also when it succeeds. *)
Theorem creation_refreshes_the_rendered_account (env : Env) (w : World) :
  let w' := invoke (createToken env) w in
  (forall e a, In e (appended w w') -> call e = GetAccount a ->
               tokenAccount (hooks w) = Some a) /\
  (tokenAccount (hooks w) = None ->
   tokenBalance (hooks w') = tokenBalance (hooks w)).
Proof.
  intros w'. subst w'.
  destruct (createToken_cases env w) as [-> | (pk & Hpk & Hs)].
  - rewrite appended_notified. split; [intros e a []|reflexivity].
  - destruct (createToken_effects env w Hpk Hs) as (_ & _ & _ & _ & _ & _ & Hreads & D).
    split; [exact Hreads|]. intros Hnone.
    destruct D as [(sig & ts & ata & _ & _ & _ & _ & _ & _ & _ & _ & Hb)
                  | (e & new & _ & _ & _ & _ & Hb)];
      [|exact Hb].
    rewrite Hnone in Hb. exact Hb.
Qed.

Lemma creation_refreshes_the_rendered_account_witness :
  tokenBalance (hooks (invoke (createToken Sample.devnet) Sample.connected)) =
  tokenBalance (hooks Sample.connected).
Proof.
  apply (proj2 (@creation_refreshes_the_rendered_account Sample.devnet Sample.connected)).
  reflexivity.
Defined.

(** ** Sessions *)

Lemma with_token_reachable : reachable Sample.devnet Sample.with_token.
Proof.
  unfold Sample.with_token, Sample.connected.
  eapply reachable_step; [eapply reachable_step; [apply reachable_initial|]|].
  - apply step_createToken.
  - apply step_fetchTokenBalance.
Qed.

Lemma with_token_steps : steps Sample.devnet Sample.connected Sample.with_token.
Proof.
  unfold Sample.with_token.
  eapply steps_more; [eapply steps_more; [apply steps_none|]|].
  - apply step_createToken.
  - apply step_fetchTokenBalance.
Qed.

Lemma reachable_paired (env : Env) (w : World) : reachable env w -> paired w.
Proof.
  induction 1 as [k s | w w' _ IH Hstep].
  - unfold paired. simpl. tauto.
  - eapply step_paired; eassumption.
Qed.

Lemma reachable_not_loading (env : Env) (w : World) :
  reachable env w -> isLoading (hooks w) = false.
Proof.
  induction 1 as [k s | w w' _ IH Hstep]; [reflexivity|].
  apply (step_orderly Hstep). exact IH.
Qed.

(** X10. Between two operations no record of the log is pending: in every
    reachable state each record is confirmed or failed. *)
Theorem no_record_left_pending (env : Env) (w : World) :
  reachable env w -> settled w.
Proof.
  induction 1 as [k s | w w' _ IH Hstep]; [constructor|].
  destruct (step_orderly Hstep) as (_ & _ & _ & _ & Hlog & _).
  eapply log_change_settled; eassumption.
Qed.

Lemma no_record_left_pending_witness : settled Sample.with_token.
Proof.
  apply (@no_record_left_pending Sample.devnet Sample.with_token).
  exact with_token_reachable.
Defined.

(** X11. Every path through a handler lowers the loading flag it raised:
    in every reachable state the flag is down, so the "Create Token" button
    is shown enabled whenever a wallet is connected. *)
Theorem create_button_is_never_left_disabled (env : Env) (w : World) :
  reachable env w ->
  isLoading (hooks w) = false /\
  createToken_button w = match publicKey w with Some _ => enabled | None => hidden end.
Proof.
  intros H. apply reachable_not_loading in H.
  split; [exact H|]. unfold createToken_button. rewrite H. reflexivity.
Qed.

Lemma create_button_is_never_left_disabled_witness :
  isLoading (hooks Sample.with_token) = false /\
  createToken_button Sample.with_token = enabled.
Proof.
  apply (@create_button_is_never_left_disabled Sample.devnet Sample.with_token).
  exact with_token_reachable.
Defined.

(** X12. The log is append-only: along any session, the records the log
    had are still there, in the same order and with the same type,
    signature, timestamp, amount and recipient, only their status may have
    changed, and the records added after them are well formed. *)
Theorem log_is_append_only (env : Env) (w w' : World) :
  steps env w w' ->
  exists new,
    Forall well_formed new /\
    map identity (transactionHistory (hooks w')) =
      map identity (transactionHistory (hooks w) ++ new)%list.
Proof.
  induction 1 as [w | w1 w2 w3 _ (new1 & Hwf1 & IH) Hstep].
  - exists []. rewrite app_nil_r. auto.
  - destruct (step_orderly Hstep) as (_ & _ & _ & _ & Hlog & _).
    destruct (log_change_identity Hlog) as (new2 & _ & Hnew2 & Hid).
    assert (Hwf2 : Forall well_formed new2)
      by (eapply Forall_impl; [|exact Hnew2]; intros tx (_ & _ & Hwf & _); exact Hwf).
    exists (new1 ++ new2)%list. split; [apply Forall_app; auto|].
    rewrite Hid, app_assoc, !map_app, IH, map_app. reflexivity.
Qed.

Lemma log_is_append_only_witness :
  exists new,
    Forall well_formed new /\
    map identity (transactionHistory (hooks Sample.with_token)) =
      map identity (transactionHistory (hooks Sample.connected) ++ new)%list.
Proof.
  apply (@log_is_append_only Sample.devnet Sample.connected Sample.with_token).
  exact with_token_steps.
Defined.

Lemma accepted_truthy (a : number) : accepted a -> truthy a = true.
Proof.
  unfold accepted. intros [Hn Hz].
  destruct a as [s | s | | s m e]; try reflexivity; try discriminate Hn.
  destruct s; vm_compute in Hz; discriminate Hz.
Qed.

Lemma reachable_well_formed (env : Env) (w : World) :
  reachable env w -> Forall well_formed (transactionHistory (hooks w)).
Proof.
  induction 1 as [k s | w w' _ IH Hstep]; [constructor|].
  destruct (step_orderly Hstep) as (_ & _ & _ & _ & Hlog & _).
  eapply log_change_well_formed; eassumption.
Qed.

(** X13. The history table never hides a logged value behind a dash: in
    every reachable state each record is well formed (a creation without
    amount and recipient, a mint with an accepted amount, a transfer with an
    accepted amount and a non-empty recipient), so its amount cell shows a
    dash exactly for a creation and its recipient cell shows a dash exactly
    for a record that is not a transfer. *)
Theorem history_rows_show_what_was_logged (env : Env) (w : World) :
  reachable env w ->
  Forall (fun tx =>
            well_formed tx /\
            (amount_cell tx = dash <-> type tx = "Token Creation") /\
            (recipient_cell tx = dash <-> type tx <> "Token Transfer"))
         (transactionHistory (hooks w)).
Proof.
  intros H. apply reachable_well_formed in H.
  eapply Forall_impl; [|exact H]. intros tx Hwf. split; [exact Hwf|].
  unfold amount_cell, recipient_cell.
  destruct Hwf as [(Ht & Ha & Hr) | [(Ht & (a & Ha & Hacc) & Hr)
                                    | (Ht & (a & Ha & Hacc) & (r & Hr & Hne))]];
    rewrite Ht, Ha, Hr; try rewrite (accepted_truthy Hacc); try rewrite Hne.
  - split; split; auto; discriminate.
  - split; split; auto; discriminate.
  - split; split; try discriminate. intros Hx. exfalso. apply Hx. reflexivity.
Qed.

Lemma history_rows_show_what_was_logged_witness :
  Forall (fun tx =>
            well_formed tx /\
            (amount_cell tx = dash <-> type tx = "Token Creation") /\
            (recipient_cell tx = dash <-> type tx <> "Token Transfer"))
         (transactionHistory (hooks Sample.with_token)).
Proof.
  apply (@history_rows_show_what_was_logged Sample.devnet Sample.with_token).
  exact with_token_reachable.
Defined.

(** X14. The log is backed by the cluster: in every reachable state the
    signature of each record was returned by the cluster for a transaction
    sent to it, and each record shown as confirmed has a confirmation of its
    signature, answered by the cluster, in the trace of the session. *)
Theorem confirmed_records_were_confirmed (env : Env) (w : World) :
  reachable env w -> vouched env w.
Proof.
  induction 1 as [k s | w w' _ IH Hstep]; [constructor|].
  destruct (step_orderly Hstep) as (Ht & _ & _ & _ & Hlog & _).
  eapply log_change_vouched; eassumption.
Qed.

Lemma confirmed_records_were_confirmed_witness :
  vouched Sample.devnet Sample.with_token.
Proof.
  apply (@confirmed_records_were_confirmed Sample.devnet Sample.with_token).
  exact with_token_reachable.
Defined.

(** X15. Nothing is sent that the wallet did not approve: in the trace of
    every reachable state, each transaction sent to the cluster comes
    right after a signing request that the wallet approved, for a
    transaction with the same instructions, blockhash and fee payer. *)
Theorem sent_transactions_were_approved (env : Env) (w : World) :
  reachable env w -> sends_follow_approval None (trace w).
Proof.
  induction 1 as [k s | w w' _ IH Hstep]; [exact I|].
  destruct (step_orderly Hstep) as (Ht & Hsfa & _).
  rewrite Ht. apply sends_follow_approval_app; assumption.
Qed.

Lemma sent_transactions_were_approved_witness :
  sends_follow_approval None (trace Sample.with_token).
Proof.
  apply (@sent_transactions_were_approved Sample.devnet Sample.with_token).
  exact with_token_reachable.
Defined.

(** X16. The balances shown are never computed locally: in every reachable
    state the token balance is 0 or the amount of a token account read from
    the cluster, divided by 1e9, and the SOL balance is 0 or a balance read
    from the cluster, divided by 1e9. *)
Theorem balances_are_cluster_reads (env : Env) (w : World) :
  reachable env w ->
  token_balance_read env (tokenBalance (hooks w)) /\
  sol_balance_read env (solBalance (hooks w)).
Proof.
  induction 1 as [k s | w w' _ [IHt IHs] Hstep].
  - split; left; reflexivity.
  - destruct (step_orderly Hstep) as (_ & _ & _ & _ & _ & Hb & Hsol & _).
    split.
    + destruct Hb as [-> | Hb]; assumption.
    + destruct Hsol as [-> | Hsol]; assumption.
Qed.

Lemma balances_are_cluster_reads_witness :
  token_balance_read Sample.devnet (tokenBalance (hooks Sample.with_token)) /\
  sol_balance_read Sample.devnet (solBalance (hooks Sample.with_token)).
Proof.
  apply (@balances_are_cluster_reads Sample.devnet Sample.with_token).
  exact with_token_reachable.
Defined.

(** ** The order of the log *)

Lemma map_timestamp_identity (l l' : list TransactionHistory) :
  map identity l' = map identity l -> map timestamp l' = map timestamp l.
Proof.
  intros H.
  apply (f_equal (map (fun i : string * Signature * Z * option number * option string =>
                         snd (fst (fst i))))) in H.
  rewrite !map_map in H. exact H.
Qed.

Lemma ascending_app (l1 l2 : list Z) :
  ascending l1 -> ascending l2 ->
  (forall x y, In x l1 -> In y l2 -> x <= y) ->
  ascending (l1 ++ l2).
Proof.
  induction l1 as [|x l1 IH]; intros H1 H2 H; [exact H2|].
  cbn [app ascending] in *. destruct H1 as [Hx H1]. split.
  - apply Forall_app. split; [exact Hx|].
    apply Forall_forall. intros y Hy. apply H; [left; reflexivity | exact Hy].
  - apply IH; auto. intros a b Ha Hb. apply H; [right; exact Ha | exact Hb].
Qed.

Lemma ascending_short (l : list Z) : (List.length l <= 1)%nat -> ascending l.
Proof.
  destruct l as [|x [|y l]]; cbn; intros H; auto; lia.
Qed.

(** X17. With a clock that does not go back, the log is in chronological
    order: in every reachable state the timestamps of the records never
    decrease along the log, the order in which the history table shows
    them, and none is later than the present. *)
Theorem log_is_chronological (env : Env) (w : World) :
  (forall t1 t2, (t1 <= t2)%nat -> Date_now env t1 <= Date_now env t2) ->
  reachable env w -> chronological env w.
Proof.
  intros Hmono. induction 1 as [k s | w w' _ [IHa IHb] Hstep].
  - split; constructor.
  - pose proof (step_later Hstep) as Hlater. unfold later in Hlater.
    destruct (step_orderly Hstep) as (_ & _ & _ & _ & Hlog & _).
    destruct (log_change_identity Hlog) as (new & Hlen & Hnew & Hid).
    assert (Hn : Forall (fun tx => Date_now env (clock w) <= timestamp tx /\
                                   timestamp tx <= Date_now env (clock w')) new).
    { eapply Forall_impl; [|exact Hnew].
      intros tx (_ & _ & _ & t & -> & Ht). split; apply Hmono; lia. }
    split.
    + rewrite (map_timestamp_identity _ _ Hid), map_app.
      apply ascending_app; [exact IHa | apply ascending_short; now rewrite length_map|].
      intros x y Hx Hy. apply in_map_iff in Hx. apply in_map_iff in Hy.
      destruct Hx as (tx & <- & Hx). destruct Hy as (ty & <- & Hy).
      rewrite Forall_forall in IHb, Hn.
      specialize (IHb tx Hx). destruct (Hn ty Hy) as [Hy1 _]. lia.
    + apply (Forall_identity
               (P := fun tx => timestamp tx <= Date_now env (clock w'))) with
          (l := (transactionHistory (hooks w) ++ new)%list); [| exact Hid |].
      * intros tx tx' Hi. unfold identity in Hi. injection Hi as _ _ -> _ _. auto.
      * apply Forall_app. split.
        -- eapply Forall_impl; [|exact IHb]. intros tx Htx. cbv beta in *.
           specialize (Hmono (clock w) (clock w') Hlater). lia.
        -- eapply Forall_impl; [|exact Hn]. intros tx [_ Htx]. exact Htx.
Qed.

Lemma log_is_chronological_witness : chronological Sample.devnet Sample.with_token.
Proof.
  apply (@log_is_chronological Sample.devnet Sample.with_token).
  - intros t1 t2 H. unfold Sample.devnet, Sample.cluster. cbn [Date_now]. lia.
  - exact with_token_reachable.
Defined.

(** ** Buttons and guards *)

Lemma rejection_is_not_a_connection_error (t : Toast) :
  InvalidAmount t \/ InsufficientBalance t -> ~ NotConnected t.
Proof.
  unfold NotConnected, InvalidAmount, InsufficientBalance.
  intros [[-> | [-> | ->]] | [b ->]] [H | [H | H]]; discriminate H.
Qed.

(** X18. What the first guard of each operation checks is what the
    rendering already ensures: in a reachable state whose wallet can sign,
    a click on a button that is shown enabled never ends in the toast of a
    missing wallet, token or field; one toast is shown, and it is another
    one. *)
Theorem enabled_buttons_pass_the_first_guard (env : Env) (w : World) :
  reachable env w -> signTransaction w = true ->
  let clicked (op : World -> M unit) :=
    exists t, toasts (invoke op w) = (toasts w ++ [t])%list /\ ~ NotConnected t in
  (createToken_button w = enabled -> clicked (createToken env)) /\
  (mintTokens_button w = enabled -> clicked (mintTokens env)) /\
  (transferTokens_button w = enabled -> clicked (transferTokens env)).
Proof.
  intros Hreach Hs clicked. subst clicked. cbv beta.
  pose proof (reachable_paired Hreach) as Hp. unfold paired in Hp.
  unfold createToken_button, mintTokens_button, transferTokens_button.
  destruct (publicKey w) as [pk|] eqn:Hpk; [|repeat split; discriminate].
  split; [|split].
  - intros _.
    destruct (createToken_effects env w Hpk Hs) as (_ & _ & _ & _ & _ & _ & _ & D).
    destruct D as [(sig & ts & ata & _ & _ & Hto & _) | (e & new & Hto & _)];
      eexists; (split; [exact Hto|]); intros [H | [H | H]]; discriminate H.
  - destruct (tokenMint (hooks w)) as [mint|] eqn:Hm; [|discriminate].
    intros _.
    destruct (mintTokens_cases env w)
      as [(Hno & _) | [(t & Hk & H)
         | (pk' & mint' & acct' & Hpk' & _ & Hm' & Ha' & Hn & Hz)]].
    + exfalso.
      destruct Hno as [Hno | [Hno | [Hno | Hno]]]; try congruence.
      apply Hp in Hno. discriminate Hno.
    + exists t. rewrite H. split; [reflexivity|].
      apply rejection_is_not_a_connection_error. auto.
    + destruct (mintTokens_effects env w Hpk' Hs Hm' Ha' Hn Hz)
        as (_ & _ & _ & _ & _ & _ & _ & D).
      destruct D as [(sig & ts & _ & _ & Hto & _) | (e & new & _ & Hto & _)];
        eexists; (split; [exact Hto|]); intros [H | [H | H]]; discriminate H.
  - destruct (tokenMint (hooks w)) as [mint|] eqn:Hm; [|discriminate].
    destruct (isLoading (hooks w)); [discriminate|].
    destruct (is_empty (transferAmount (hooks w))) eqn:Hta; [discriminate|].
    destruct (is_empty (recipientAddress (hooks w))) eqn:Hr; [discriminate|].
    intros _.
    destruct (transferTokens_cases env w)
      as [(Hno & _) | [(t & Hk & H)
         | (pk' & mint' & acct' & Hpk' & _ & Hm' & Ha' & Hr' & Hta' & (Hn & Hz) & Hg)]].
    + exfalso.
      destruct Hno as [Hno | [Hno | [Hno | [Hno | [Hno | Hno]]]]]; try congruence.
      apply Hp in Hno. discriminate Hno.
    + exists t. rewrite H. split; [reflexivity|].
      apply rejection_is_not_a_connection_error. auto.
    + destruct (transferTokens_effects env w Hpk' Hs Hm' Ha' Hr' Hta' Hn Hz Hg)
        as (_ & _ & _ & _ & _ & _ & D).
      destruct D as [(sig & ts & _ & _ & Hto & _) | (e & new & _ & Hto & _)];
        eexists; (split; [exact Hto|]); intros [H | [H | H]]; discriminate H.
Qed.

Lemma enabled_buttons_pass_the_first_guard_witness :
  let w := Sample.typing Sample.friend "15" Sample.with_token in
  exists t, toasts (invoke (transferTokens Sample.devnet) w) = (toasts w ++ [t])%list /\
            ~ NotConnected t.
Proof.
  intros w.
  refine (proj2 (proj2 (@enabled_buttons_pass_the_first_guard Sample.devnet w _ _)) _).
  - eapply reachable_step; [eapply reachable_step; [exact with_token_reachable|]|].
    + apply step_recipient.
    + apply step_transferAmount.
  - reflexivity.
  - vm_compute. reflexivity.
Defined.

(** ** The revision with a fixed mint quantity *)

(** X19. The earlier revision of [mintTokens], which takes no amount, is
    the mint of the amount 1 of the later revision: started in the same
    state, with an amount field that parses to 1, both make the same calls
    with the same transactions, and end with the same log, the same token
    balance, the loading flag lowered and a toast of the same level; the
    earlier revision leaves the amount field alone. *)
Theorem fixed_mint_is_a_mint_of_one (env : Env) (w : World) (pk mint acct : PublicKey) :
  publicKey w = Some pk -> signTransaction w = true ->
  tokenMint (hooks w) = Some mint -> tokenAccount (hooks w) = Some acct ->
  parseFloat (mintAmount (hooks w)) = of_Z 1 ->
  let w2 := invoke (Revision2.mintTokens env) w in
  let w3 := invoke (mintTokens env) w in
  trace w2 = trace w3 /\
  transactionHistory (hooks w2) = transactionHistory (hooks w3) /\
  tokenBalance (hooks w2) = tokenBalance (hooks w3) /\
  isLoading (hooks w2) = isLoading (hooks w3) /\
  map level (toasts w2) = map level (toasts w3) /\
  mintAmount (hooks w2) = mintAmount (hooks w).
Proof.
  intros Hpk Hs Hm Ha H1 w2 w3.
  assert (Hq : BigInt_floor (mul (of_Z 1) billion) = Ok 1000000000%Z)
    by (vm_compute; reflexivity).
  assert (Hg : (isNaN (of_Z 1) || leb (of_Z 1) zero)%bool = false)
    by (vm_compute; reflexivity).
  subst w2 w3.
  remember (invoke (Revision2.mintTokens env) w) as W2 eqn:H2.
  remember (invoke (mintTokens env) w) as W3 eqn:H3.
  revert H2 H3.
  unfold invoke, Revision2.mintTokens, mintTokens.
  rewrite Hpk, Hs, Hm, Ha, H1, Hg.
  unfold mintTokens_submit, Revision2.mintTokens_try, mintTokens_try.
  rewrite Hq. unfold fetchTokenBalance. rewrite Hpk, Ha.
  exec.
  all: intros -> ->.
  all: cbn [hooks toasts trace isLoading transactionHistory tokenBalance mintAmount].
  all: rewrite ?map_app; cbn [map level].
  all: repeat split; reflexivity.
Qed.

Lemma fixed_mint_is_a_mint_of_one_witness :
  let w := fst (setMintAmount "1" Sample.with_token) in
  trace (invoke (Revision2.mintTokens Sample.devnet) w) =
  trace (invoke (mintTokens Sample.devnet) w).
Proof.
  intros w.
  refine (proj1 (@fixed_mint_is_a_mint_of_one Sample.devnet w Sample.wallet "Mint"
            ("Ata/Mint/" ++ Sample.wallet) _ _ _ _ _));
    vm_compute; reflexivity.
Defined.

(** ** An amount beyond the range of the conversion *)

(** X20. An accepted mint amount whose product with 1e9 overflows to
    Infinity passes the checks of [mintTokens] and fails in the conversion
    to an integer, inside the [try] block and before any collaborator call:
    the error toast carries the message of the range error, the records of
    type "Token Mint" are marked failed, no record is added, the amount
    field is kept and the loading flag is lowered. *)
Theorem unbounded_mint_amount_fails_in_conversion
        (env : Env) (w : World) (pk mint acct : PublicKey) :
  publicKey w = Some pk -> signTransaction w = true ->
  tokenMint (hooks w) = Some mint -> tokenAccount (hooks w) = Some acct ->
  let a := parseFloat (mintAmount (hooks w)) in
  isNaN a = false -> leb a zero = false ->
  mul a billion = infinity false ->
  let w' := invoke (mintTokens env) w in
  appended w w' = [] /\
  toasts w' = (toasts w ++
    [{| level := error;
        content :=
          [Text "Failed to mint tokens: ";
           Text "The number Infinity cannot be converted to a BigInt because it is not an integer"]
     |}])%list /\
  transactionHistory (hooks w') =
    map (fail_by "Token Mint") (transactionHistory (hooks w)) /\
  mintAmount (hooks w') = mintAmount (hooks w) /\
  tokenBalance (hooks w') = tokenBalance (hooks w) /\
  isLoading (hooks w') = false.
Proof.
  intros Hpk Hs Hm Ha a Hn Hz Hinf w'. subst w'. name_run.
  unfold invoke, mintTokens. rewrite Hpk, Hs, Hm, Ha. fold a.
  rewrite Hn, Hz. cbn [orb].
  unfold mintTokens_submit, mintTokens_try. rewrite Hinf.
  unfold infinity, BigInt_floor. cbn [floor_integer].
  unfold_js. intros ->. rewrite appended_nil by reflexivity.
  repeat split; reflexivity.
Qed.

Lemma unbounded_mint_amount_fails_in_conversion_witness :
  let w := fst (setMintAmount "Infinity" Sample.with_token) in
  appended w (invoke (mintTokens Sample.devnet) w) = [].
Proof.
  intros w.
  refine (proj1 (@unbounded_mint_amount_fails_in_conversion Sample.devnet w Sample.wallet
            "Mint" ("Ata/Mint/" ++ Sample.wallet) _ _ _ _ _ _ _));
    vm_compute; reflexivity.
Defined.

(** ** A refresh that succeeds *)

(** X21. A balance refresh without a wallet session, or, for the token
    balance, without a token account, does nothing: no call, no change.
    Otherwise it makes one read, of the wallet's balance or of the token
    account; when the read answers, the balance read, divided by 1e9, is
    stored, no toast is shown and nothing else changes. *)
Theorem refresh_stores_the_balance_read (env : Env) (w : World) :
  match publicKey w with
  | None =>
      invoke (fetchSolBalance env) w = w /\ invoke (fetchTokenBalance env) w = w
  | Some pk =>
      (forall lamports,
         connection_getBalance env (clock w) pk = Ok lamports ->
         invoke (fetchSolBalance env) w =
           {| hooks := hooks (fst (setSolBalance (div lamports billion) w));
              publicKey := publicKey w; signTransaction := signTransaction w;
              toasts := toasts w;
              trace := trace w ++ [returned_ok (GetBalance pk)];
              clock := S (clock w) |}) /\
      match tokenAccount (hooks w) with
      | None => invoke (fetchTokenBalance env) w = w
      | Some acct =>
          forall acc,
            spl_getAccount env (clock w) acct = Ok acc ->
            invoke (fetchTokenBalance env) w =
              {| hooks := hooks (fst (setTokenBalance
                                        (div (of_Z (Account.amount acc)) billion) w));
                 publicKey := publicKey w; signTransaction := signTransaction w;
                 toasts := toasts w;
                 trace := trace w ++ [returned_ok (GetAccount acct)];
                 clock := S (clock w) |}
      end
  end.
Proof.
  unfold invoke, fetchSolBalance, fetchTokenBalance.
  destruct (publicKey w) as [pk|] eqn:Hpk; [|split; reflexivity].
  split.
  - intros lamports H. unfold_js. rewrite H. unfold_js. rewrite ?Hpk. reflexivity.
  - destruct (tokenAccount (hooks w)) as [acct|] eqn:Ha; [|reflexivity].
    intros acc H. unfold_js. rewrite H. unfold_js. rewrite ?Hpk, ?Ha. reflexivity.
Qed.

Lemma refresh_stores_the_balance_read_witness :
  tokenBalance (hooks (invoke (fetchTokenBalance Sample.devnet) Sample.with_token)) =
  of_Z 10.
Proof.
  pose proof (@refresh_stores_the_balance_read Sample.devnet Sample.with_token) as H.
  cbn [publicKey Sample.with_token] in H.
  change (publicKey Sample.with_token) with (Some Sample.wallet) in H.
  cbv beta iota in H. destruct H as [_ H].
  change (tokenAccount (hooks Sample.with_token))
    with (Some ("Ata/Mint/" ++ Sample.wallet)) in H.
  cbv beta iota in H.
  rewrite (H {| Account.amount := 10000000000 |} eq_refl).
  vm_compute. reflexivity.
Defined.

(** ** What a success changes in the log *)

Lemma confirm_by_absent (sig : Signature) (l : list TransactionHistory) :
  (forall old, In old l -> signature old <> sig) -> map (confirm_by sig) l = l.
Proof.
  induction l as [|tx l IH]; intros H; [reflexivity|].
  cbn [map]. rewrite IH by (intros old Ho; apply H; right; exact Ho).
  unfold confirm_by.
  destruct (String.eqb (signature tx) sig) eqn:E; [|reflexivity].
  apply String.eqb_eq in E. exfalso. apply (H tx); [left; reflexivity | exact E].
Qed.

Lemma last_toast (l : list Toast) (t t' : Toast) :
  (l ++ [t])%list = (l ++ [t'])%list -> t = t'.
Proof. intros H. apply app_inv_head in H. injection H as ->. reflexivity. Qed.

Lemma confirmed_run (op : World -> M unit) (w : World) (sig : Signature)
      (tx : TransactionHistory) :
  signature tx = sig ->
  transactionHistory (hooks (invoke op w)) =
    map (confirm_by sig) (transactionHistory (hooks w) ++ [tx])%list ->
  exists tx',
    status tx' = confirmed /\
    transactionHistory (hooks (invoke op w)) =
      (map (confirm_by (signature tx')) (transactionHistory (hooks w)) ++ [tx'])%list /\
    ((forall old, In old (transactionHistory (hooks w)) ->
                  signature old <> signature tx') ->
     transactionHistory (hooks (invoke op w)) =
       (transactionHistory (hooks w) ++ [tx'])%list).
Proof.
  intros Hs Hh. exists (with_status confirmed tx).
  rewrite confirm_by_new in Hh by exact Hs.
  cbn [signature status with_status]. rewrite Hs.
  split; [reflexivity|]. split; [exact Hh|].
  intros Hno. rewrite Hh, confirm_by_absent by exact Hno. reflexivity.
Qed.

Lemma notified_is_no_success (op : World -> M unit) (w : World) (t : Toast) :
  level t = error -> invoke op w = notified t w -> success_adds op w.
Proof.
  intros Hl H t' Hto Hs. rewrite H in Hto. apply last_toast in Hto. subst t'.
  rewrite Hl in Hs. discriminate Hs.
Qed.

(** X22. A success touches the log by signature: when a run of
    [createToken], [mintTokens] or [transferTokens] ends with a success
    toast, its record is appended with status confirmed and the earlier
    records that have the signature of the run are marked confirmed; when
    no earlier record has that signature, no earlier record changes. *)
Theorem success_touches_only_its_signature (env : Env) (w : World) :
  success_adds (createToken env) w /\
  success_adds (mintTokens env) w /\
  success_adds (transferTokens env) w.
Proof.
  split; [|split].
  - destruct (createToken_cases env w) as [H | (pk & Hpk & Hs)];
      [eapply notified_is_no_success; [|exact H]; reflexivity|].
    destruct (createToken_effects env w Hpk Hs) as (_ & _ & _ & _ & _ & _ & _ & D).
    destruct D as [(sig & ts & ata & _ & _ & _ & Hh & _) | (e & new & Hto & _)].
    + intros t _ _. eapply confirmed_run; [|exact Hh]. reflexivity.
    + intros t Ht Hl. rewrite Hto in Ht. apply last_toast in Ht. subst t.
      discriminate Hl.
  - destruct (mintTokens_cases env w)
      as [(_ & H) | [(t & Hk & H) | (pk & mint & acct & Hpk & Hs & Hm & Ha & Hn & Hz)]];
      [eapply notified_is_no_success; [|exact H]; reflexivity
      |eapply notified_is_no_success; [|exact H];
       destruct Hk as [-> | [-> | ->]]; reflexivity|].
    destruct (mintTokens_effects env w Hpk Hs Hm Ha Hn Hz)
      as (_ & _ & _ & _ & _ & _ & _ & D).
    destruct D as [(sig & ts & _ & _ & _ & Hh & _) | (e & new & _ & Hto & _)].
    + intros t _ _. eapply confirmed_run; [|exact Hh]. reflexivity.
    + intros t Ht Hl. rewrite Hto in Ht. apply last_toast in Ht. subst t.
      discriminate Hl.
  - destruct (transferTokens_cases env w)
      as [(_ & H) | [(t & Hk & H)
         | (pk & mint & acct & Hpk & Hs & Hm & Ha & Hr & Hta & (Hn & Hz) & Hg)]];
      [eapply notified_is_no_success; [|exact H]; reflexivity
      |eapply notified_is_no_success; [|exact H];
       destruct Hk as [[-> | [-> | ->]] | [b ->]]; reflexivity|].
    destruct (transferTokens_effects env w Hpk Hs Hm Ha Hr Hta Hn Hz Hg)
      as (_ & _ & _ & _ & _ & _ & D).
    destruct D as [(sig & ts & _ & _ & _ & Hh & _) | (e & new & _ & Hto & _)].
    + intros t _ _. eapply confirmed_run; [|exact Hh]. reflexivity.
    + intros t Ht Hl. rewrite Hto in Ht. apply last_toast in Ht. subst t.
      discriminate Hl.
Qed.

(** ** Transactions are prepared before they are signed *)

Ltac preparing :=
  cbn [prepared call];
  repeat match goal with
         | |- _ /\ _ => split
         | |- True => exact I
         | |- exists _, _ => eexists
         | |- connection_getLatestBlockhash _ _ = _ => eassumption
         | |- _ = _ => reflexivity
         end.

Ltac following :=
  cbn [follows call kind mint_protocol transfer_protocol creation_protocol];
  repeat match goal with
         | |- _ /\ _ => split
         | |- True => exact I
         | |- _ = _ => reflexivity
         end.

(** The transactions of a trace of [createToken] that is written out. *)
Ltac creating :=
  let tx := fresh "tx" in
  let Hin := fresh "Hin" in
  intros tx Hin; cbn [signing_requests submitted flat_map call app] in Hin;
  repeat (destruct Hin as [<- | Hin];
          [ first [ left; eexists _, _; split; [eassumption | reflexivity]
                  | right; eexists; split; [reflexivity | reflexivity] ] |]);
  contradiction.

Lemma createToken_calls (env : Env) (w : World) (pk : PublicKey) :
  publicKey w = Some pk ->
  let evs := appended w (invoke (createToken env) w) in
  prepared env pk None evs /\
  follows evs creation_protocol /\
  (forall tx, In tx (signing_requests evs ++ submitted evs)%list ->
              creation_transaction env pk (attempt_mint env w) tx).
Proof.
  intros Hpk evs. subst evs. name_run.
  unfold invoke, createToken, creation_transaction, attempt_mint. rewrite Hpk.
  destruct (signTransaction w);
    [|unfold_js; settle_run; split; [exact I|]; split; [exact I|]; intros tx []].
  unfold createToken_try, fetchTokenBalance. rewrite Hpk.
  destruct (tokenAccount (hooks w)) as [old|] eqn:Hold.
  all: exec.
  all: settle_run.
  all: split; [preparing|].
  all: split; [following|].
  all: creating.
Qed.

Lemma mintTokens_calls (env : Env) (w : World) (pk : PublicKey) :
  publicKey w = Some pk ->
  let evs := appended w (invoke (mintTokens env) w) in
  prepared env pk None evs /\ follows evs mint_protocol.
Proof.
  intros Hpk evs. subst evs.
  destruct (mintTokens_cases env w)
    as [(_ & ->) | [(t & _ & ->) | (pk' & mint & acct & Hpk' & Hs & Hm & Ha & Hn & Hz)]];
    [rewrite appended_notified; split; exact I..|].
  name_run.
  unfold invoke, mintTokens. rewrite Hpk, Hs, Hm, Ha. rewrite Hn, Hz. cbn [orb].
  unfold mintTokens_submit, mintTokens_try, fetchTokenBalance. rewrite Hpk, Ha.
  exec.
  all: settle_run.
  all: split; [preparing | following].
Qed.

Lemma transferTokens_calls (env : Env) (w : World) (pk : PublicKey) :
  publicKey w = Some pk ->
  let evs := appended w (invoke (transferTokens env) w) in
  prepared env pk None evs /\ follows evs transfer_protocol.
Proof.
  intros Hpk evs. subst evs.
  destruct (transferTokens_cases env w)
    as [(_ & ->) | [(t & _ & ->)
       | (pk' & mint & acct & Hpk' & Hs & Hm & Ha & Hr & Hta & (Hn & Hz) & Hg)]];
    [rewrite appended_notified; split; exact I..|].
  name_run.
  unfold invoke, transferTokens. rewrite Hpk, Hs, Hm, Ha, Hr, Hta. rewrite Hn, Hz, Hg.
  cbn [orb].
  unfold transferTokens_submit, transferTokens_try, fetchTokenBalance. rewrite Hpk, Ha.
  exec.
  all: settle_run.
  all: split; [preparing | following].
Qed.

(** X23. What the wallet is asked to sign is prepared, and what is sent is
    signed: in every run of [createToken], [mintTokens] and
    [transferTokens] of a connected wallet, each transaction handed to the
    wallet comes right after a blockhash query that answered, carries a
    blockhash given by the cluster and the wallet as fee payer, and has no
    signature yet; each transaction sent to the cluster has the signature
    of the wallet first. *)
Theorem signing_requests_are_prepared (env : Env) (w : World) (pk : PublicKey) :
  publicKey w = Some pk ->
  prepared env pk None (appended w (invoke (createToken env) w)) /\
  prepared env pk None (appended w (invoke (mintTokens env) w)) /\
  prepared env pk None (appended w (invoke (transferTokens env) w)).
Proof.
  intros Hpk. split; [|split].
  - apply (createToken_calls env w Hpk).
  - apply (mintTokens_calls env w Hpk).
  - apply (transferTokens_calls env w Hpk).
Qed.

Lemma signing_requests_are_prepared_witness :
  prepared Sample.devnet Sample.wallet None
           (appended Sample.connected (invoke (createToken Sample.devnet) Sample.connected)).
Proof.
  apply (proj1 (@signing_requests_are_prepared Sample.devnet Sample.connected
                  Sample.wallet eq_refl)).
Defined.

Lemma follows_nothing (protocol : list Kind) : follows [] protocol.
Proof. exact I. Qed.

(** X24. The calls of an operation come in one order: the calls of every
    run of [createToken] are the first calls of: key generation, rent
    query, blockhash, signature, send, confirmation, blockhash, signature,
    send, confirmation, read of the token account; those of [mintTokens] of:
    blockhash, signature, send, confirmation, read of the token account;
    those of [transferTokens] of: read of the recipient's account, then the
    same five.  So nothing is signed before a blockhash was asked for,
    nothing is sent before it was signed, and the second transaction of
    [createToken] is built only after the confirmation of the first was
    asked for. *)
Theorem calls_follow_the_protocol (env : Env) (w : World) :
  follows (appended w (invoke (createToken env) w)) creation_protocol /\
  follows (appended w (invoke (mintTokens env) w)) mint_protocol /\
  follows (appended w (invoke (transferTokens env) w)) transfer_protocol.
Proof.
  destruct (publicKey w) as [pk|] eqn:Hpk.
  - split; [|split].
    + apply (createToken_calls env w Hpk).
    + apply (mintTokens_calls env w Hpk).
    + apply (transferTokens_calls env w Hpk).
  - destruct (createToken_cases env w) as [-> | (pk & Hpk' & _)]; [|congruence].
    destruct (mintTokens_cases env w)
      as [(_ & ->) | [(t & _ & ->) | (pk & mint & acct & Hpk' & _)]]; [| |congruence].
    all: destruct (transferTokens_cases env w)
      as [(_ & ->) | [(t' & _ & ->) | (pk & mint & acct & Hpk' & _)]]; [| |congruence].
    all: rewrite !appended_notified; repeat split.
Qed.

(** X25. Every transaction that a run of [createToken] hands to the wallet
    or sends is one of two: the creation of the mint account, funded with
    the rent the cluster asked for, followed by the initialisation of the
    mint with 9 decimals and the wallet as mint authority and as freeze
    authority; or the creation of the associated token account of the
    wallet for that mint, at the address derived for them, paid by the
    wallet.  The mint is the key that this run generated. *)
Theorem creation_transactions (env : Env) (w : World) (pk : PublicKey) :
  publicKey w = Some pk ->
  let evs := appended w (invoke (createToken env) w) in
  forall tx, In tx (signing_requests evs ++ submitted evs)%list ->
             creation_transaction env pk (attempt_mint env w) tx.
Proof.
  intros Hpk. apply (createToken_calls env w Hpk).
Qed.

Lemma creation_transactions_witness :
  exists tx,
    creation_transaction Sample.devnet Sample.wallet
      (attempt_mint Sample.devnet Sample.connected) tx.
Proof.
  eexists.
  eapply (@creation_transactions Sample.devnet Sample.connected Sample.wallet eq_refl).
  vm_compute. left. reflexivity.
Defined.

(** ** The build configuration override *)

Import ConfigOverrides.

Lemma get_set_same (k v : string) (o : Fallback) : get k (set k v o) = Some v.
Proof.
  induction o as [|[k' v'] o IH]; cbn [set get].
  - now rewrite String.eqb_refl.
  - destruct (String.eqb k' k) eqn:E; cbn [get]; [now rewrite String.eqb_refl|].
    rewrite E. exact IH.
Qed.

Lemma get_set_other (k k0 v : string) (o : Fallback) :
  k <> k0 -> get k0 (set k v o) = get k0 o.
Proof.
  intros Hne. induction o as [|[k' v'] o IH]; cbn [set get].
  - destruct (String.eqb k k0) eqn:E; [apply String.eqb_eq in E; contradiction|reflexivity].
  - destruct (String.eqb k' k) eqn:E; cbn [get].
    + apply String.eqb_eq in E. subst k'.
      destruct (String.eqb k k0) eqn:E0; [apply String.eqb_eq in E0; contradiction|reflexivity].
    + destruct (String.eqb k' k0); [reflexivity | exact IH].
Qed.

Lemma set_present (k v : string) (o : Fallback) :
  get k o = Some v -> set k v o = o.
Proof.
  induction o as [|[k' v'] o IH]; cbn [set get]; [discriminate|].
  destruct (String.eqb k' k) eqn:E.
  - apply String.eqb_eq in E. subst k'. intros H. injection H as ->. reflexivity.
  - intros H. rewrite (IH H). reflexivity.
Qed.


(** X27. Applying [override] a second time returns as well, leaves the
    fallbacks of the first application as they are, and adds the
    [ProvidePlugin] a second time. *)
Theorem override_twice
        (require_resolve : string -> result string) (config : Config) :
  match override require_resolve config with
  | Ok once =>
      exists twice,
        override require_resolve once = Ok twice /\
        fallback twice = fallback once /\
        plugins twice = (plugins config ++ [provided; provided])%list
  | Throw _ => True
  end.
Proof.
  unfold override.
  destruct (require_resolve "browserify-zlib") as [zlib|e]; cbn [and_then]; [|exact I].
  destruct (require_resolve "stream-http") as [http|e]; cbn [and_then]; [|exact I].
  destruct (require_resolve "https-browserify") as [https|e]; cbn [and_then]; [|exact I].
  destruct (require_resolve "crypto-browserify") as [crypto|e]; cbn [and_then]; [|exact I].
  destruct (require_resolve "stream-browserify") as [stream|e]; cbn [and_then]; [|exact I].
  eexists. split; [reflexivity|]. cbn [fallback plugins]. split.
  - f_equal.
    match goal with |- _ = ?y => set (o := y) end.
    assert (G : get "zlib" o = Some zlib /\ get "http" o = Some http /\
                get "https" o = Some https /\ get "crypto" o = Some crypto /\
                get "stream" o = Some stream).
    { subst o.
      repeat split;
        repeat first [ rewrite get_set_same
                     | rewrite get_set_other by discriminate ]; reflexivity. }
    destruct G as (G1 & G2 & G3 & G4 & G5).
    rewrite (set_present _ _ G1), (set_present _ _ G2), (set_present _ _ G3),
      (set_present _ _ G4), (set_present _ _ G5). reflexivity.
  - rewrite <- app_assoc. reflexivity.
Qed.
